(** * appDraggable: the drag-and-drop sorting directive

    A shallow embedding of [src/draggable.directive.ts].  The directive is a
    class whose three host listeners ([onMouseDown], [onMouseMove],
    [onMouseUp]) mutate its private fields and, through Angular's [Renderer2]
    and [ViewContainerRef], the host element and the child list of the host's
    parent.  The embedding threads one [State] record (fields, inputs, emitted
    events, the part of the document the code touches) through functions that
    follow the handlers statement by statement.

    Conventions.
    - Pixel coordinates and indices are JavaScript numbers that only ever hold
      integers here; they are modelled as [Z].
    - Everything the browser computes and the code merely reads ([clientX],
      [window.scrollX], [offsetLeft], [document.elementFromPoint], whether the
      drag handle contains the event target) is carried by the event records.
    - The host element is attached to a parent throughout; [children] is
      [parentElement.children], the element children in document order.
    - The placeholder template has element roots only, so the node the
      directive takes as [rootNodes[0]] is an element of [children]. *)

From stdpp Require Import gmap strings list.

#[local] Open Scope Z_scope.

(** ** Document nodes *)

(** The elements the directive can meet: its host, the ordinary elements of
    the page, and the root elements of the embedded views it instantiates from
    the placeholder template ([Ph v i] is root number [i] of view [v]). *)
Inductive node : Type :=
  | Host
  | Item (i : nat)
  | Ph (v i : nat).

#[global] Instance node_eq_dec : EqDecision node.
Proof. solve_decision. Defined.

Definition is_placeholder (n : node) : bool :=
  match n with Ph _ _ => true | _ => false end.

(** A value read from a property typed [any]: a number, or [undefined]. *)
Inductive js_number : Type :=
  | Undefined
  | Num (z : Z).

(** Values handed to [Renderer2.setStyle]. *)
Inductive css_value : Type :=
  | CssText (s : string)
  | CssPx (z : Z)               (* [n + 'px'] *)
  | CssComputedStyle.           (* the [CSSStyleDeclaration] kept in [initialWidth] *)

Inductive Axis : Type := AxisX | AxisY.

#[global] Instance Axis_eq_dec : EqDecision Axis.
Proof. solve_decision. Defined.

(** [TemplateRef<HTMLElement>]: a template whose root nodes are elements, as
    the type says; what matters of it is how many root elements a view
    instantiated from it has.  Templates with a text or comment node among
    their roots lie outside the model. *)
Record TemplateRef : Type := { rootCount : nat }.

(** [EmbeddedViewRef<HTMLElement>]. *)
Record EmbeddedViewRef : Type := { view_id : nat; rootNodes : list node }.

(** [ListDragReordering]: the payload of [changeCurrentElIndex].  The source
    types both fields as [number], but [newIndex] is read from a property of
    type [any]. *)
Module ListDragReordering.
Record t : Type := { oldIndex : Z; newIndex : js_number }.
End ListDragReordering.

(** ** State *)

(** The part of the document the directive reads and writes. *)
Record Dom : Type := {
  children : list node;              (* parentElement.children *)
  style : gmap string css_value;     (* inline style of the host *)
  classList : gset string;           (* class list of the host *)
  host_oldIndex : js_number;         (* nativeElement.oldIndex, not a DOM property *)
}.

(** The [@Input] fields.  [zIndex] is declared but never read: the handler
    sets ['z-index'] to ['11'].  An unset [dragBy] is the empty string. *)
Record Inputs : Type := {
  blockedAxis : option Axis;
  zIndex : Z;
  dragBy : string;
  rowPlaceholder : option TemplateRef;
}.

(** The fields of the directive, its inputs, its output and the document.
    [initialWidth] holds one object for the whole life of the directive and
    appears only as the value [CssComputedStyle]. *)
Record State : Type := {
  isDragging : bool;
  initialX : Z;
  initialY : Z;
  prevX : Z;
  prevY : Z;
  rowPlaceholderViewRef : option EmbeddedViewRef;
  rowPlaceholderElement : option node;
  oldIndex : Z;
  mouseMoveListener : bool;          (* [true]: the bound method, [false]: undefined *)
  inputs : Inputs;
  changeCurrentElIndex : list ListDragReordering.t;   (* events emitted so far *)
  dom : Dom;
  viewCounter : nat;                 (* identifier of the next embedded view *)
}.

(** Field assignments. *)
Definition set_isDragging (b : bool) (s : State) : State :=
  {| isDragging := b; initialX := initialX s; initialY := initialY s;
     prevX := prevX s; prevY := prevY s;
     rowPlaceholderViewRef := rowPlaceholderViewRef s;
     rowPlaceholderElement := rowPlaceholderElement s;
     oldIndex := oldIndex s; mouseMoveListener := mouseMoveListener s;
     inputs := inputs s; changeCurrentElIndex := changeCurrentElIndex s;
     dom := dom s; viewCounter := viewCounter s |}.

Definition set_initial (x y : Z) (s : State) : State :=
  {| isDragging := isDragging s; initialX := x; initialY := y;
     prevX := prevX s; prevY := prevY s;
     rowPlaceholderViewRef := rowPlaceholderViewRef s;
     rowPlaceholderElement := rowPlaceholderElement s;
     oldIndex := oldIndex s; mouseMoveListener := mouseMoveListener s;
     inputs := inputs s; changeCurrentElIndex := changeCurrentElIndex s;
     dom := dom s; viewCounter := viewCounter s |}.

Definition set_prev (x y : Z) (s : State) : State :=
  {| isDragging := isDragging s; initialX := initialX s; initialY := initialY s;
     prevX := x; prevY := y;
     rowPlaceholderViewRef := rowPlaceholderViewRef s;
     rowPlaceholderElement := rowPlaceholderElement s;
     oldIndex := oldIndex s; mouseMoveListener := mouseMoveListener s;
     inputs := inputs s; changeCurrentElIndex := changeCurrentElIndex s;
     dom := dom s; viewCounter := viewCounter s |}.

Definition set_rowPlaceholderViewRef (v : option EmbeddedViewRef) (s : State) : State :=
  {| isDragging := isDragging s; initialX := initialX s; initialY := initialY s;
     prevX := prevX s; prevY := prevY s;
     rowPlaceholderViewRef := v;
     rowPlaceholderElement := rowPlaceholderElement s;
     oldIndex := oldIndex s; mouseMoveListener := mouseMoveListener s;
     inputs := inputs s; changeCurrentElIndex := changeCurrentElIndex s;
     dom := dom s; viewCounter := viewCounter s |}.

Definition set_rowPlaceholderElement (e : option node) (s : State) : State :=
  {| isDragging := isDragging s; initialX := initialX s; initialY := initialY s;
     prevX := prevX s; prevY := prevY s;
     rowPlaceholderViewRef := rowPlaceholderViewRef s;
     rowPlaceholderElement := e;
     oldIndex := oldIndex s; mouseMoveListener := mouseMoveListener s;
     inputs := inputs s; changeCurrentElIndex := changeCurrentElIndex s;
     dom := dom s; viewCounter := viewCounter s |}.

Definition set_oldIndex (i : Z) (s : State) : State :=
  {| isDragging := isDragging s; initialX := initialX s; initialY := initialY s;
     prevX := prevX s; prevY := prevY s;
     rowPlaceholderViewRef := rowPlaceholderViewRef s;
     rowPlaceholderElement := rowPlaceholderElement s;
     oldIndex := i; mouseMoveListener := mouseMoveListener s;
     inputs := inputs s; changeCurrentElIndex := changeCurrentElIndex s;
     dom := dom s; viewCounter := viewCounter s |}.

Definition set_mouseMoveListener (b : bool) (s : State) : State :=
  {| isDragging := isDragging s; initialX := initialX s; initialY := initialY s;
     prevX := prevX s; prevY := prevY s;
     rowPlaceholderViewRef := rowPlaceholderViewRef s;
     rowPlaceholderElement := rowPlaceholderElement s;
     oldIndex := oldIndex s; mouseMoveListener := b;
     inputs := inputs s; changeCurrentElIndex := changeCurrentElIndex s;
     dom := dom s; viewCounter := viewCounter s |}.

Definition set_inputs (i : Inputs) (s : State) : State :=
  {| isDragging := isDragging s; initialX := initialX s; initialY := initialY s;
     prevX := prevX s; prevY := prevY s;
     rowPlaceholderViewRef := rowPlaceholderViewRef s;
     rowPlaceholderElement := rowPlaceholderElement s;
     oldIndex := oldIndex s; mouseMoveListener := mouseMoveListener s;
     inputs := i; changeCurrentElIndex := changeCurrentElIndex s;
     dom := dom s; viewCounter := viewCounter s |}.

Definition set_dom (d : Dom) (s : State) : State :=
  {| isDragging := isDragging s; initialX := initialX s; initialY := initialY s;
     prevX := prevX s; prevY := prevY s;
     rowPlaceholderViewRef := rowPlaceholderViewRef s;
     rowPlaceholderElement := rowPlaceholderElement s;
     oldIndex := oldIndex s; mouseMoveListener := mouseMoveListener s;
     inputs := inputs s; changeCurrentElIndex := changeCurrentElIndex s;
     dom := d; viewCounter := viewCounter s |}.

Definition set_viewCounter (n : nat) (s : State) : State :=
  {| isDragging := isDragging s; initialX := initialX s; initialY := initialY s;
     prevX := prevX s; prevY := prevY s;
     rowPlaceholderViewRef := rowPlaceholderViewRef s;
     rowPlaceholderElement := rowPlaceholderElement s;
     oldIndex := oldIndex s; mouseMoveListener := mouseMoveListener s;
     inputs := inputs s; changeCurrentElIndex := changeCurrentElIndex s;
     dom := dom s; viewCounter := n |}.

(** [EventEmitter.emit]. *)
Definition emit (e : ListDragReordering.t) (s : State) : State :=
  {| isDragging := isDragging s; initialX := initialX s; initialY := initialY s;
     prevX := prevX s; prevY := prevY s;
     rowPlaceholderViewRef := rowPlaceholderViewRef s;
     rowPlaceholderElement := rowPlaceholderElement s;
     oldIndex := oldIndex s; mouseMoveListener := mouseMoveListener s;
     inputs := inputs s;
     changeCurrentElIndex := changeCurrentElIndex s ++ [e];
     dom := dom s; viewCounter := viewCounter s |}.

Definition set_children (l : list node) (s : State) : State :=
  set_dom {| children := l; style := style (dom s); classList := classList (dom s);
             host_oldIndex := host_oldIndex (dom s) |} s.

Definition set_style (m : gmap string css_value) (s : State) : State :=
  set_dom {| children := children (dom s); style := m; classList := classList (dom s);
             host_oldIndex := host_oldIndex (dom s) |} s.

Definition set_classList (c : gset string) (s : State) : State :=
  set_dom {| children := children (dom s); style := style (dom s); classList := c;
             host_oldIndex := host_oldIndex (dom s) |} s.

Definition set_rowPlaceholder (t : option TemplateRef) (s : State) : State :=
  set_inputs {| blockedAxis := blockedAxis (inputs s); zIndex := zIndex (inputs s);
                dragBy := dragBy (inputs s); rowPlaceholder := t |} s.

Definition set_blockedAxis (a : option Axis) (s : State) : State :=
  set_inputs {| blockedAxis := a; zIndex := zIndex (inputs s);
                dragBy := dragBy (inputs s);
                rowPlaceholder := rowPlaceholder (inputs s) |} s.

(** ** The child list of the host's parent *)

(** [Array.prototype.indexOf]: position of the first occurrence, or [-1]. *)
Fixpoint indexOf (x : node) (l : list node) : Z :=
  match l with
  | [] => -1
  | y :: l' =>
      if decide (y = x) then 0
      else let r := indexOf x l' in if r <? 0 then -1 else r + 1
  end.

(** [children[index]] for a number [index]: [undefined] out of range. *)
Definition item (index : Z) (l : list node) : option node :=
  if index <? 0 then None else l !! Z.to_nat index.

(** Removing a node from the list. *)
Definition detach (x : node) (l : list node) : list node :=
  filter (λ y, y ≠ x) l.

(** [x.parentNode] is non-null: placeholder elements are children of the
    host's parent or detached. *)
Definition attached (x : node) (l : list node) : bool :=
  bool_decide (x ∈ l).

(** [nativeElement.nextSibling], at the level of element children. *)
Fixpoint nextSibling (x : node) (l : list node) : option node :=
  match l with
  | [] => None
  | y :: l' => if decide (y = x) then head l' else nextSibling x l'
  end.

(** Placing [x] in front of the child [r]. *)
Fixpoint place_before (r x : node) (l : list node) : list node :=
  match l with
  | [] => [x]
  | y :: l' => if decide (y = r) then x :: y :: l' else y :: place_before r x l'
  end.

(** [parent.insertBefore(newChild, refChild)].  A node already in the tree is
    moved; a null or undefined reference appends; a reference that is the node
    itself leaves it where it is. *)
Definition insertBefore (newChild : node) (refChild : option node)
    (l : list node) : list node :=
  match refChild with
  | None => detach newChild l ++ [newChild]
  | Some r =>
      if decide (r = newChild) then l
      else place_before r newChild (detach newChild l)
  end.

(** [parent.appendChild(newChild)]. *)
Definition appendChild (newChild : node) (l : list node) : list node :=
  detach newChild l ++ [newChild].

(** The nodes of a view container are rendered right after its anchor. *)
Fixpoint place_after (x : node) (new l : list node) : list node :=
  match l with
  | [] => []
  | y :: l' => if decide (y = x) then y :: new ++ l' else y :: place_after x new l'
  end.

(** ** Renderer2, ViewContainerRef and EmbeddedViewRef *)

Definition renderer_removeStyleAttribute (s : State) : State :=
  set_style ∅ s.

(** Whether the browser can parse [v] as a value of the property [name].  Of
    the values the handlers pass it rejects two: the [CSSStyleDeclaration]
    object given as ['width'], which reads "[object CSSStyleDeclaration]",
    and ['top left .15s ease-in'] given as ['transition'], which names two
    properties in one transition. *)
Definition css_parses (name : string) (v : css_value) : bool :=
  match v with
  | CssComputedStyle => false
  | CssPx _ => true
  | CssText t =>
      negb (String.eqb name "transition" && String.eqb t "top left .15s ease-in")
  end.

(** [el.style[name] = v]: a value the browser cannot parse is dropped and the
    inline style stays as it is. *)
Definition renderer_setStyle (name : string) (v : css_value) (s : State) : State :=
  if css_parses name v
  then set_style (<[name := v]> (style (dom s))) s
  else s.

Definition renderer_addClass (c : string) (s : State) : State :=
  set_classList ({[c]} ∪ classList (dom s)) s.

Definition renderer_removeClass (c : string) (s : State) : State :=
  set_classList (classList (dom s) ∖ {[c]}) s.

Definition renderer_insertBefore (newChild : node) (refChild : option node)
    (s : State) : State :=
  set_children (insertBefore newChild refChild (children (dom s))) s.

Definition renderer_appendChild (newChild : node) (s : State) : State :=
  set_children (appendChild newChild (children (dom s))) s.

(** [viewContainerRef.createEmbeddedView(tpl)]: instantiates the template and
    inserts the new view into the container, whose anchor is the host, so the
    root elements appear right after the host. *)
Definition createEmbeddedView (tpl : TemplateRef) (s : State)
    : EmbeddedViewRef * State :=
  let v := viewCounter s in
  let roots := Ph v <$> seq 0 (rootCount tpl) in
  let s := set_children (place_after Host roots (children (dom s))) s in
  ({| view_id := v; rootNodes := roots |}, set_viewCounter (S v) s).

(** [viewRef.destroy()]: the root elements of the view leave the document. *)
Definition destroy (v : EmbeddedViewRef) (s : State) : State :=
  set_children (filter (λ y, y ∉ rootNodes v) (children (dom s))) s.

(** ** Events *)

(** [mousedown] on the host.  [md_onHandle] is the value of
    [dragHandler && dragHandler.contains(event.target)]. *)
Record MouseDownEvent : Type := {
  md_clientX : Z;
  md_clientY : Z;
  md_scrollX : Z;       (* window.scrollX *)
  md_scrollY : Z;       (* window.scrollY *)
  md_onHandle : bool;
}.

(** [mousemove] on the document, with the layout of the host at that time
    and the answer of [document.elementFromPoint] ([None]: null, or not an
    [HTMLElement]). *)
Record MouseMoveEvent : Type := {
  mm_clientX : Z;
  mm_clientY : Z;
  mm_offsetLeft : Z;    (* nativeElement.offsetLeft *)
  mm_offsetTop : Z;     (* nativeElement.offsetTop *)
  mm_elementFromPoint : option node;
}.

(** [mouseup] on the document; the handler takes no event argument and reads
    the layout of the host once its inline style is gone. *)
Record MouseUpEvent : Type := {
  mu_offsetLeft : Z;
  mu_offsetTop : Z;
}.

(** How a handler finishes: normally, or by a [TypeError] thrown from the
    DOM; either way the state reached so far stays. *)
Inductive Completion : Type :=
  | Normal (s : State)
  | TypeError (s : State).

Definition state_of (c : Completion) : State :=
  match c with Normal s | TypeError s => s end.

Definition threw (c : Completion) : bool :=
  match c with Normal _ => false | TypeError _ => true end.

(** ** The directive *)

(** What the constructor reads, and the bindings Angular sets before any
    event; the host sits between the elements [before] and [after]. *)
Record Setup : Type := {
  setup_inputs : Inputs;
  setup_offsetLeft : Z;
  setup_offsetTop : Z;
  setup_before : list nat;
  setup_after : list nat;
  setup_style : gmap string css_value;
  setup_classList : gset string;
  setup_host_oldIndex : js_number;
}.

Definition constructor (c : Setup) : State :=
  {| isDragging := false;
     initialX := setup_offsetLeft c;
     initialY := setup_offsetTop c;
     prevX := 0;
     prevY := 0;
     rowPlaceholderViewRef := None;
     rowPlaceholderElement := None;
     oldIndex := -1;
     mouseMoveListener := true;
     inputs := setup_inputs c;
     changeCurrentElIndex := [];
     dom := {| children := (Item <$> setup_before c) ++ Host :: (Item <$> setup_after c);
               style := setup_style c;
               classList := setup_classList c;
               host_oldIndex := setup_host_oldIndex c |};
     viewCounter := 0 |}.

(** [document.removeEventListener] of a listener that was never added does
    nothing; only the field changes. *)
Definition cleanupListeners (s : State) : State :=
  if mouseMoveListener s then set_mouseMoveListener false s else s.

Definition ngOnDestroy (s : State) : State := cleanupListeners s.

Definition removeRowPlaceholderElement (s : State) : State :=
  let s :=
    match rowPlaceholderViewRef s with
    | Some v => set_rowPlaceholderViewRef None (destroy v s)
    | None => s
    end in
  match rowPlaceholderElement s with
  | Some el =>
      if attached el (children (dom s))
      then set_rowPlaceholderElement None
             (set_children (detach el (children (dom s))) s)
      else s
  | None => s
  end.

(** [rootNodes[0]] is undefined for a template without root element; the
    DOM then rejects the insertion with a [TypeError]. *)
Definition createRowPlaceholderElement (tpl : TemplateRef) (s : State) : Completion :=
  let s := removeRowPlaceholderElement s in
  let (view, s) := createEmbeddedView tpl s in
  let s := set_rowPlaceholderViewRef (Some view) s in
  let s := set_rowPlaceholderElement (head (rootNodes view)) s in
  match rowPlaceholderElement s with
  | Some el =>
      Normal (renderer_insertBefore el (nextSibling Host (children (dom s))) s)
  | None => TypeError s
  end.

Definition changeRowPlaceholderIndex (tpl : TemplateRef) (index : Z) (s : State) : State :=
  let s := removeRowPlaceholderElement s in
  let (view, s) := createEmbeddedView tpl s in
  let s := set_rowPlaceholderViewRef (Some view) s in
  let s := set_rowPlaceholderElement (head (rootNodes view)) s in
  match rowPlaceholderElement s with
  | Some el =>
      let children_ := children (dom s) in
      let childCount := Z.of_nat (length children_) in
      if index =? childCount
      then renderer_appendChild el s
      else renderer_insertBefore el (item index children_) s
  | None => s
  end.

(** The test of [onMouseDown]: no handle class, or the press is on the handle. *)
Definition grabs (event : MouseDownEvent) (s : State) : bool :=
  bool_decide (dragBy (inputs s) = "") || md_onHandle event.

Definition onMouseDown (event : MouseDownEvent) (s : State) : Completion :=
  if grabs event s then
    let s := renderer_removeStyleAttribute s in
    let s := renderer_removeClass "app-draggable-dragging" s in
    let s := set_isDragging true s in
    let s := set_initial (md_clientX event + md_scrollX event)
                         (md_clientY event + md_scrollY event) s in
    let s := set_prev (initialX s) (initialY s) s in
    let s := renderer_setStyle "width" CssComputedStyle s in
    let s := renderer_setStyle "position" (CssText "fixed") s in
    let s := renderer_setStyle "z-index" (CssText "11") s in
    let s := renderer_setStyle "cursor" (CssText "grabbing") s in
    let s := renderer_setStyle "transition" (CssText "top left .15s ease-in") s in
    let s := renderer_setStyle "user-select" (CssText "none") s in
    let s := renderer_addClass "app-draggable-dragging" s in
    match rowPlaceholder (inputs s) with
    | Some tpl => createRowPlaceholderElement tpl s
    | None => Normal s
    end
  else Normal s.

Definition onMouseUp (event : MouseUpEvent) (s : State) : State :=
  if isDragging s then
    let s := set_isDragging false s in
    let s := cleanupListeners s in
    let s := renderer_removeStyleAttribute s in
    let s := renderer_removeClass "app-draggable-dragging" s in
    let s := set_initial (mu_offsetLeft event) (mu_offsetTop event) s in
    let s := removeRowPlaceholderElement s in
    let s := removeRowPlaceholderElement s in
    emit {| ListDragReordering.oldIndex := oldIndex s;
            ListDragReordering.newIndex := host_oldIndex (dom s) |} s
  else s.

(** The index computed by [onMouseMove] for the element under the cursor:
    [items] is the child list without the placeholder, [old] is
    [this.oldIndex]. *)
Definition newIndexFor (items : list node) (elementUnderCursor : node)
    (old clientY prevY_ : Z) : Z :=
  let itemsNumber := Z.of_nat (length items) in
  let newIndex := indexOf elementUnderCursor items + 1 in
  let newIndex := if newIndex <? 0 then 0 else newIndex in
  let newIndex :=
    if newIndex >? old then
      let newIndex := newIndex - 1 in
      if newIndex <? 0 then 0 else newIndex
    else newIndex in
  let newIndex :=
    if newIndex <? old then
      let newIndex := newIndex + 1 in
      if newIndex >? itemsNumber then itemsNumber - 1 else newIndex
    else newIndex in
  if (newIndex =? old) && (clientY <? prevY_) then newIndex - 1 else newIndex.

(** [Array.from(parentElement.children).filter(child => child !== this.rowPlaceholderElement)]. *)
Definition itemsOf (s : State) : list node :=
  filter (λ child, Some child ≠ rowPlaceholderElement s) (children (dom s)).

Definition onMouseMove (event : MouseMoveEvent) (s : State) : State :=
  if isDragging s then
    let offsetX := mm_clientX event - prevX s in
    let offsetY := mm_clientY event - prevY s in
    let newLeft := mm_offsetLeft event + offsetX in
    let newTop := mm_offsetTop event + offsetY in
    let s :=
      if decide (blockedAxis (inputs s) ≠ Some AxisX)
      then renderer_setStyle "left" (CssPx newLeft) s
      else s in
    let s :=
      if decide (blockedAxis (inputs s) ≠ Some AxisY) then
        let s := renderer_setStyle "top" (CssPx newTop) s in
        match mm_elementFromPoint event with
        | Some elementUnderCursor =>
            let newIndex :=
              newIndexFor (itemsOf s) elementUnderCursor (oldIndex s)
                          (mm_clientY event) (prevY s) in
            let s :=
              match rowPlaceholder (inputs s) with
              | Some tpl => changeRowPlaceholderIndex tpl newIndex s
              | None => s
              end in
            set_oldIndex newIndex s
        | None => s
        end
      else s in
    set_prev (mm_clientX event) (mm_clientY event) s
  else s.

(** ** Event delivery *)

(** [@HostListener] binds the three handlers when the directive is created
    and Angular unbinds them when it is destroyed, after [ngOnDestroy]. *)
Record Instance : Type := {
  hostListeners : bool;
  this : State;
}.

Definition create (c : Setup) : Instance :=
  {| hostListeners := true; this := constructor c |}.

Definition teardown (i : Instance) : Instance :=
  {| hostListeners := false; this := ngOnDestroy (this i) |}.

Inductive Event : Type :=
  | MouseDown (e : MouseDownEvent)
  | MouseMove (e : MouseMoveEvent)
  | MouseUp (e : MouseUpEvent).

Definition handle (ev : Event) (s : State) : State :=
  match ev with
  | MouseDown e => state_of (onMouseDown e s)
  | MouseMove e => onMouseMove e s
  | MouseUp e => onMouseUp e s
  end.

Definition dispatch (ev : Event) (i : Instance) : Instance :=
  if hostListeners i
  then {| hostListeners := true; this := handle ev (this i) |}
  else i.

Definition run (s : State) (evs : list Event) : State :=
  foldl (λ s ev, handle ev s) s evs.

Definition deliver (i : Instance) (evs : list Event) : Instance :=
  foldl (λ i ev, dispatch ev i) i evs.

(** * Vocabulary of the statements *)

(** The state a drag is made of, apart from the placeholder machinery
    ([rowPlaceholderViewRef], [rowPlaceholderElement], the child list, the
    view counter) and the inputs. *)
Definition drag_part (s : State) :=
  (isDragging s, initialX s, initialY s, prevX s, prevY s, oldIndex s,
   mouseMoveListener s, changeCurrentElIndex s,
   style (dom s), classList (dom s), host_oldIndex (dom s)).

(** The placeholder machinery of [s] replaced. *)
Definition with_placeholder (v : option EmbeddedViewRef) (e : option node)
    (l : list node) (n : nat) (s : State) : State :=
  set_viewCounter n
    (set_children l (set_rowPlaceholderElement e (set_rowPlaceholderViewRef v s))).

Definition is_up (ev : Event) : bool :=
  match ev with MouseUp _ => true | _ => false end.

(** A pointer-move that reaches the index computation of [onMouseMove]: a
    session is active, the vertical axis is not blocked, and there is an
    [HTMLElement] under the cursor. *)
Definition reevaluates (ev : Event) (s : State) : bool :=
  match ev with
  | MouseMove e =>
      isDragging s
      && bool_decide (blockedAxis (inputs s) ≠ Some AxisY)
      && bool_decide (is_Some (mm_elementFromPoint e))
  | _ => false
  end.

(** No event of the trace, processed from [s] on, re-evaluates the index. *)
Fixpoint quiet (s : State) (evs : list Event) : bool :=
  match evs with
  | [] => true
  | ev :: evs' => negb (reevaluates ev s) && quiet (handle ev s) evs'
  end.

(** Every placeholder element in the child list is a root of the view the
    directive currently holds. *)
Definition tracked (s : State) : Prop :=
  ∀ n, n ∈ children (dom s) → is_placeholder n = true →
       ∃ v, rowPlaceholderViewRef s = Some v ∧ n ∈ rootNodes v.

(** The element the directive points to, if any, is a placeholder. *)
Definition element_ok (s : State) : Prop :=
  ∀ el, rowPlaceholderElement s = Some el → is_placeholder el = true.

(** The invariant of the states the directive reaches: placeholders are
    tracked, outside a session there is no view, and
    [rowPlaceholderElement] only ever holds a placeholder. *)
Definition consistent (s : State) : Prop :=
  tracked s
  ∧ (isDragging s = false → rowPlaceholderViewRef s = None)
  ∧ element_ok s.

(** [rowPlaceholderElement] is null, or points to an element that is not in
    the child list. *)
Definition element_gone (s : State) : bool :=
  match rowPlaceholderElement s with
  | Some el => negb (attached el (children (dom s)))
  | None => true
  end.

Definition no_placeholder (l : list node) : Prop :=
  ∀ n, n ∈ l → is_placeholder n = false.

(** The placeholder machinery: what [drag_part] leaves out. *)
Definition placeholder_part (s : State) :=
  (rowPlaceholderViewRef s, rowPlaceholderElement s, children (dom s), viewCounter s).

(** The style property that moves the host along an axis. *)
Definition axis_property (a : Axis) : string :=
  match a with AxisX => "left" | AxisY => "top" end.

(** A concrete list and pointer events used to exercise the handlers: the
    host is the second of three rows. *)
Module Scenario.

Definition bindings (axis : option Axis) (tpl : option TemplateRef) : Inputs :=
  {| blockedAxis := axis; zIndex := 0; dragBy := ""; rowPlaceholder := tpl |}.

Definition rows (axis : option Axis) (tpl : option TemplateRef) : Setup :=
  {| setup_inputs := bindings axis tpl;
     setup_offsetLeft := 0; setup_offsetTop := 40;
     setup_before := [0%nat]; setup_after := [1%nat];
     setup_style := ∅; setup_classList := ∅;
     setup_host_oldIndex := Undefined |}.

Definition one_root : option TemplateRef := Some {| rootCount := 1 |}.

(** A press at (100, 50) in a window scrolled by [scroll] horizontally. *)
Definition press (scroll : Z) : MouseDownEvent :=
  {| md_clientX := 100; md_clientY := 50; md_scrollX := scroll;
     md_scrollY := 0; md_onHandle := false |}.

(** The cursor at ([x], [y]) over [under], the host laid out at (30, 40). *)
Definition move (x y : Z) (under : option node) : MouseMoveEvent :=
  {| mm_clientX := x; mm_clientY := y; mm_offsetLeft := 30;
     mm_offsetTop := 40; mm_elementFromPoint := under |}.

Definition release : MouseUpEvent :=
  {| mu_offsetLeft := 0; mu_offsetTop := 40 |}.

End Scenario.

(** ** Vocabulary of the further properties *)

(** The child list the constructor finds. *)
Definition setup_children (c : Setup) : list node :=
  (Item <$> setup_before c) ++ Host :: (Item <$> setup_after c).

(** The elements of the page in a child list, and the placeholder elements. *)
Definition rows_of (l : list node) : list node :=
  filter (λ n, is_placeholder n = false) l.

Definition placeholders_of (l : list node) : list node :=
  filter (λ n, is_placeholder n = true) l.

(** The class the handlers set on the host while it is dragged. *)
Definition dragging_class : string := "app-draggable-dragging".

(** A press, if the event is one, misses the drag handle. *)
Definition off_handle (ev : Event) : bool :=
  match ev with MouseDown d => negb (md_onHandle d) | _ => true end.

Definition is_move (ev : Event) : bool :=
  match ev with MouseMove _ => true | _ => false end.

(** The number of root elements the bound placeholder template gives a view;
    none without template. *)
Definition template_roots (i : Inputs) : nat :=
  match rowPlaceholder i with Some tpl => rootCount tpl | None => 0%nat end.

(** The view [v] was instantiated from the bound template. *)
Definition view_of_template (s : State) (v : EmbeddedViewRef) : Prop :=
  ∃ tpl, rowPlaceholder (inputs s) = Some tpl
         ∧ rootNodes v = Ph (view_id v) <$> seq 0 (rootCount tpl).

(** How the child list is made up: the elements of the page are [rows], in
    that order; the placeholder elements are the roots of the view held, each
    once, and [rowPlaceholderElement] is the first of them; without a view
    there is no placeholder element. *)
Definition arranged (rows : list node) (s : State) : Prop :=
  rows_of (children (dom s)) = rows
  ∧ element_ok s
  ∧ match rowPlaceholderViewRef s with
    | Some v => view_of_template s v
                ∧ placeholders_of (children (dom s)) ≡ₚ rootNodes v
                ∧ rowPlaceholderElement s = head (rootNodes v)
    | None => placeholders_of (children (dom s)) = []
    end.

(** A view is held exactly during the sessions of a directive that has a
    template. *)
Definition in_step (s : State) : Prop :=
  match rowPlaceholderViewRef s with
  | Some _ => isDragging s = true
  | None => isDragging s = true → rowPlaceholder (inputs s) = None
  end.

(** The largest number of siblings the index computation can count: the rows
    and, of the roots of a view, all but the one the directive points to. *)
Definition most_items (c : Setup) : nat :=
  (length (setup_children c) + (template_roots (setup_inputs c) - 1))%nat.

(** * Properties *)

(** ** The model at work *)

(** A press puts the placeholder right after the host. *)
Example press_places_placeholder_after_host :
  let s := run (constructor (Scenario.rows None Scenario.one_root))
               [MouseDown (Scenario.press 0)] in
  children (dom s) = [Item 0; Host; Ph 0 0; Item 1]
  ∧ rowPlaceholderElement s = Some (Ph 0 0)
  ∧ isDragging s = true
  ∧ style (dom s) !! "position" = Some (CssText "fixed").
Proof. vm_compute. done. Qed.

(** Dragging over the last row moves the placeholder in front of it; the
    release removes it and restores the host. *)
Example drag_then_release :
  let s := run (constructor (Scenario.rows None Scenario.one_root))
               [MouseDown (Scenario.press 0);
                MouseMove (Scenario.move 100 70 (Some (Item 1)))] in
  let s' := onMouseUp Scenario.release s in
  children (dom s) = [Item 0; Host; Ph 1 0; Item 1]
  ∧ children (dom s') = [Item 0; Host; Item 1]
  ∧ style (dom s') = ∅
  ∧ isDragging s' = false.
Proof. vm_compute. done. Qed.

(** A template without root element makes the press end in a [TypeError],
    with the session already flagged as active. *)
Example press_with_empty_template :
  let c := onMouseDown (Scenario.press 0)
             (constructor (Scenario.rows None (Some {| rootCount := 0 |}))) in
  threw c = true ∧ isDragging (state_of c) = true.
Proof. vm_compute. done. Qed.

(** ** Frames *)

Lemma removeRowPlaceholderElement_shape s :
  ∃ v e l, removeRowPlaceholderElement s = with_placeholder v e l (viewCounter s) s.
Proof.
  unfold removeRowPlaceholderElement, with_placeholder.
  destruct s as [? ? ? ? ? vr el ? ? ? ? [] ?]; simpl.
  destruct vr as [v|]; simpl; destruct el as [x|]; simpl;
    try destruct (attached x _);
    cbv [destroy set_children set_dom set_rowPlaceholderElement
         set_rowPlaceholderViewRef set_viewCounter]; simpl;
    by eexists _, _, _.
Qed.

Lemma createRowPlaceholderElement_shape tpl s :
  ∃ v e l n, state_of (createRowPlaceholderElement tpl s) = with_placeholder v e l n s.
Proof.
  unfold createRowPlaceholderElement, createEmbeddedView.
  destruct (removeRowPlaceholderElement_shape s) as (v & e & l & ->).
  unfold with_placeholder. simpl.
  destruct (head _); simpl; by eexists _, _, _, _.
Qed.

Lemma changeRowPlaceholderIndex_shape tpl index s :
  ∃ v e l n, changeRowPlaceholderIndex tpl index s = with_placeholder v e l n s.
Proof.
  unfold changeRowPlaceholderIndex, createEmbeddedView.
  destruct (removeRowPlaceholderElement_shape s) as (v & e & l & ->).
  unfold with_placeholder. simpl.
  destruct (head _); simpl; [destruct (_ =? _); simpl|]; by eexists _, _, _, _.
Qed.

(** Replacing the calls of the placeholder routines in the goal by their shape. *)
Ltac placeholder_shape :=
  repeat match goal with
  | |- context [removeRowPlaceholderElement ?x] =>
      let E := fresh "E" in
      destruct (removeRowPlaceholderElement_shape x) as (? & ? & ? & E);
      rewrite E; clear E
  | |- context [createRowPlaceholderElement ?t ?x] =>
      let E := fresh "E" in
      destruct (createRowPlaceholderElement_shape t x) as (? & ? & ? & ? & E);
      rewrite E; clear E
  | |- context [changeRowPlaceholderIndex ?t ?i ?x] =>
      let E := fresh "E" in
      destruct (changeRowPlaceholderIndex_shape t i x) as (? & ? & ? & ? & E);
      rewrite E; clear E
  end.

Lemma removeRowPlaceholderElement_frame s :
  drag_part (removeRowPlaceholderElement s) = drag_part s
  ∧ inputs (removeRowPlaceholderElement s) = inputs s.
Proof. by placeholder_shape. Qed.

Lemma createRowPlaceholderElement_frame tpl s :
  drag_part (state_of (createRowPlaceholderElement tpl s)) = drag_part s
  ∧ inputs (state_of (createRowPlaceholderElement tpl s)) = inputs s.
Proof. by placeholder_shape. Qed.

Lemma changeRowPlaceholderIndex_frame tpl index s :
  drag_part (changeRowPlaceholderIndex tpl index s) = drag_part s
  ∧ inputs (changeRowPlaceholderIndex tpl index s) = inputs s.
Proof. by placeholder_shape. Qed.

Lemma inputs_onMouseDown e s : inputs (state_of (onMouseDown e s)) = inputs s.
Proof.
  unfold onMouseDown. destruct (grabs e s); [|done]. simpl.
  destruct (rowPlaceholder (inputs s)) as [tpl|]; [|done].
  by placeholder_shape.
Qed.

Lemma inputs_onMouseMove e s : inputs (onMouseMove e s) = inputs s.
Proof.
  unfold onMouseMove. destruct (isDragging s); [|done].
  repeat case_decide; simpl; try done;
    destruct (mm_elementFromPoint e); simpl; try done;
    destruct (rowPlaceholder (inputs s)); simpl; try done;
    by placeholder_shape.
Qed.

Lemma inputs_onMouseUp e s : inputs (onMouseUp e s) = inputs s.
Proof.
  unfold onMouseUp. destruct (isDragging s); [|done]. simpl.
  placeholder_shape. unfold cleanupListeners. simpl.
  by destruct (mouseMoveListener s).
Qed.

Lemma inputs_handle ev s : inputs (handle ev s) = inputs s.
Proof.
  destruct ev; simpl;
    auto using inputs_onMouseDown, inputs_onMouseMove, inputs_onMouseUp.
Qed.

Lemma inputs_run evs : ∀ s, inputs (run s evs) = inputs s.
Proof.
  induction evs as [|ev evs IH]; intros s; [done|].
  simpl. unfold run in IH. by rewrite IH, inputs_handle.
Qed.

(** ** What each handler does to the session fields *)

Lemma onMouseDown_session e s :
  let s' := state_of (onMouseDown e s) in
  isDragging s' = (if grabs e s then true else isDragging s)
  ∧ oldIndex s' = oldIndex s
  ∧ changeCurrentElIndex s' = changeCurrentElIndex s
  ∧ host_oldIndex (dom s') = host_oldIndex (dom s).
Proof.
  unfold onMouseDown. destruct (grabs e s); [|done]. simpl.
  destruct (rowPlaceholder (inputs s)) as [tpl|]; [|done].
  by placeholder_shape.
Qed.

Lemma onMouseMove_session e s :
  let s' := onMouseMove e s in
  isDragging s' = isDragging s
  ∧ changeCurrentElIndex s' = changeCurrentElIndex s
  ∧ host_oldIndex (dom s') = host_oldIndex (dom s).
Proof.
  unfold onMouseMove. destruct (isDragging s) eqn:Hd; [|done].
  repeat case_decide; simpl; try done;
    destruct (mm_elementFromPoint e); simpl; try done;
    destruct (rowPlaceholder (inputs s)); simpl; try done;
    by placeholder_shape.
Qed.

Lemma onMouseUp_session e s :
  let s' := onMouseUp e s in
  isDragging s' = false
  ∧ oldIndex s' = oldIndex s
  ∧ host_oldIndex (dom s') = host_oldIndex (dom s)
  ∧ changeCurrentElIndex s' =
      changeCurrentElIndex s ++
      (if isDragging s
       then [ {| ListDragReordering.oldIndex := oldIndex s;
                 ListDragReordering.newIndex := host_oldIndex (dom s) |} ]
       else []).
Proof.
  unfold onMouseUp. destruct (isDragging s) eqn:Hd.
  - cbv zeta. placeholder_shape. unfold cleanupListeners. simpl.
    by destruct (mouseMoveListener s).
  - by rewrite app_nil_r.
Qed.

Lemma onMouseUp_idle e s : isDragging s = false → onMouseUp e s = s.
Proof. unfold onMouseUp. by intros ->. Qed.

Lemma onMouseMove_idle e s : isDragging s = false → onMouseMove e s = s.
Proof. unfold onMouseMove. by intros ->. Qed.

(** ** removeRowPlaceholderElement *)

Lemma removeRowPlaceholderElement_idem s :
  removeRowPlaceholderElement (removeRowPlaceholderElement s)
  = removeRowPlaceholderElement s.
Proof.
  unfold removeRowPlaceholderElement.
  destruct (rowPlaceholderViewRef s) as [v|] eqn:Hv; simpl;
    destruct (rowPlaceholderElement s) as [el|] eqn:He; simpl;
    rewrite ?Hv, ?He; try done;
    destruct (attached el _) eqn:Ha; simpl; rewrite ?Hv, ?He, ?Ha; done.
Qed.

Lemma removeRowPlaceholderElement_post s :
  let s' := removeRowPlaceholderElement s in
  rowPlaceholderViewRef s' = None
  ∧ (rowPlaceholderElement s' = None
     ∨ ∃ el, rowPlaceholderElement s' = Some el
             ∧ rowPlaceholderElement s = Some el
             ∧ el ∉ children (dom s')).
Proof.
  unfold removeRowPlaceholderElement.
  destruct (rowPlaceholderViewRef s) as [v|] eqn:Hv; simpl;
    destruct (rowPlaceholderElement s) as [el|] eqn:He; simpl;
    rewrite ?Hv, ?He; auto;
    destruct (attached el _) eqn:Ha; simpl; rewrite ?Hv, ?He; auto;
    (split; [done|]; right; exists el; repeat split; try done;
     unfold attached in Ha; by apply bool_decide_eq_false in Ha).
Qed.

(** C10.  [removeRowPlaceholderElement] is idempotent on every state: a
    second call in succession changes nothing.  After one call the view
    reference is null and the placeholder element is null or no longer in the
    child list, so neither branch of the routine fires again; the second of
    the two calls made by [onMouseUp] is therefore without effect. *)
Theorem removeRowPlaceholderElement_idempotent :
  ∀ s : State,
    removeRowPlaceholderElement (removeRowPlaceholderElement s)
    = removeRowPlaceholderElement s
    ∧ rowPlaceholderViewRef (removeRowPlaceholderElement s) = None
    ∧ element_gone (removeRowPlaceholderElement s) = true.
Proof.
  intros s. split; [apply removeRowPlaceholderElement_idem|].
  unfold element_gone.
  destruct (removeRowPlaceholderElement_post s) as [Hv [He|(el & He & _ & Hn)]];
    simpl in *; rewrite He; (split; [exact Hv|]); [done|].
  unfold attached. by rewrite bool_decide_eq_false_2.
Qed.

(** C10, first call.  On the state an accepted press leaves (a view held,
    its root in the child list), one call of [removeRowPlaceholderElement]
    nulls the view reference but not [rowPlaceholderElement]: [destroy] has
    taken the element out of the child list, so its [parentNode] is null and
    the second branch of the routine, which would null the field, is not
    taken.  The field is not null after the first call. *)
Lemma first_call_keeps_the_detached_element :
  let s := run (constructor (Scenario.rows None Scenario.one_root))
               [MouseDown (Scenario.press 0)] in
  rowPlaceholderViewRef s = Some {| view_id := 0; rootNodes := [Ph 0 0] |}
  ∧ rowPlaceholderElement s = Some (Ph 0 0)
  ∧ attached (Ph 0 0) (children (dom s)) = true
  ∧ rowPlaceholderViewRef (removeRowPlaceholderElement s) = None
  ∧ rowPlaceholderElement (removeRowPlaceholderElement s) = Some (Ph 0 0)
  ∧ ¬ (rowPlaceholderViewRef (removeRowPlaceholderElement s) = None
       ∧ rowPlaceholderElement (removeRowPlaceholderElement s) = None).
Proof. vm_compute. repeat split. intros [_ H]. discriminate H. Qed.

(** ** Traces *)

Lemma run_app s l1 l2 : run s (l1 ++ l2) = run (run s l1) l2.
Proof. unfold run. apply foldl_app. Qed.

Lemma run_cons s ev evs : run s (ev :: evs) = run (handle ev s) evs.
Proof. done. Qed.

Lemma handle_not_up ev s :
  is_up ev = false →
  changeCurrentElIndex (handle ev s) = changeCurrentElIndex s
  ∧ (isDragging s = true → isDragging (handle ev s) = true).
Proof.
  destruct ev as [d|m|u]; simpl; [| |done]; intros _.
  - destruct (onMouseDown_session d s) as (Hd & _ & He & _).
    split; [done|]. intros H. rewrite Hd. by destruct (grabs d s).
  - destruct (onMouseMove_session m s) as (Hd & He & _).
    split; [done|]. congruence.
Qed.

Lemma run_without_up mid :
  ∀ s, forallb (λ ev, negb (is_up ev)) mid = true →
       isDragging s = true →
       isDragging (run s mid) = true
       ∧ changeCurrentElIndex (run s mid) = changeCurrentElIndex s.
Proof.
  induction mid as [|ev mid IH]; intros s Hall Hd; [done|].
  simpl in Hall. apply andb_true_iff in Hall as [Hev Hall].
  apply negb_true_iff in Hev.
  destruct (handle_not_up ev s Hev) as [He Hk].
  rewrite run_cons. destruct (IH (handle ev s) Hall (Hk Hd)) as [-> ->]. done.
Qed.

(** C3.  A completed drag, that is a pointer-down the directive accepts, any
    events but a pointer-up, then a pointer-up, emits exactly one event; and
    a pointer-up received while no session is active changes nothing, so it
    emits none. *)
Theorem one_event_per_completed_drag :
  ∀ (s : State) (d : MouseDownEvent) (mid : list Event) (u : MouseUpEvent)
    (s0 : State) (u0 : MouseUpEvent),
    grabs d s = true →
    forallb (λ ev, negb (is_up ev)) mid = true →
    isDragging s0 = false →
    (∃ ev, changeCurrentElIndex (run s (MouseDown d :: mid ++ [MouseUp u]))
           = changeCurrentElIndex s ++ [ev])
    ∧ changeCurrentElIndex (run s (MouseDown d :: mid)) = changeCurrentElIndex s
    ∧ isDragging (run s (MouseDown d :: mid ++ [MouseUp u])) = false
    ∧ onMouseUp u0 s0 = s0.
Proof.
  intros s d mid u s0 u0 Hg Hmid Hidle.
  destruct (onMouseDown_session d s) as (Hd & _ & He & _). rewrite Hg in Hd.
  destruct (run_without_up mid _ Hmid Hd) as [Hd' He'].
  rewrite app_comm_cons, run_app, !run_cons. simpl.
  destruct (onMouseUp_session u (run (state_of (onMouseDown d s)) mid))
    as (Hf & _ & _ & Hu).
  rewrite Hd' in Hu. simpl in Hu. rewrite Hu, He', He.
  repeat split; [by eexists|done|by apply onMouseUp_idle].
Qed.

Lemma one_event_per_completed_drag_witness :
  let s := constructor (Scenario.rows None Scenario.one_root) in
  let d := Scenario.press 0 in
  let m := Scenario.move 100 70 (Some (Item 1)) in
  let u := Scenario.release in
  (∃ ev, changeCurrentElIndex (run s (MouseDown d :: [MouseMove m] ++ [MouseUp u]))
         = changeCurrentElIndex s ++ [ev])
  ∧ changeCurrentElIndex (run s (MouseDown d :: [MouseMove m])) = changeCurrentElIndex s
  ∧ isDragging (run s (MouseDown d :: [MouseMove m] ++ [MouseUp u])) = false
  ∧ onMouseUp u s = s.
Proof.
  intros s d m u.
  apply (one_event_per_completed_drag s d [MouseMove m] u s u);
    vm_compute; reflexivity.
Defined.

(** [ngOnDestroy] clears [mouseMoveListener] and nothing else: a session
    that is active stays flagged as active. *)
Lemma ngOnDestroy_keeps_session s :
  isDragging (ngOnDestroy s) = isDragging s
  ∧ drag_part (ngOnDestroy s) = drag_part (set_mouseMoveListener false s)
  ∧ placeholder_part (ngOnDestroy s) = placeholder_part s.
Proof.
  unfold ngOnDestroy, cleanupListeners, drag_part.
  by destruct (mouseMoveListener s) eqn:E; simpl; rewrite ?E.
Qed.

(** C8.  Once a pointer-up has been handled, pointer-moves leave the whole
    state (fields, styles, child list) as it is; once the directive is torn
    down, its host listeners are unbound and no event reaches it.  On both
    paths [cleanupListeners] has cleared [mouseMoveListener]. *)
Theorem no_move_after_session_or_teardown :
  (∀ (s : State) (u : MouseUpEvent) (moves : list MouseMoveEvent),
      run (onMouseUp u s) (MouseMove <$> moves) = onMouseUp u s)
  ∧ (∀ (i : Instance) (evs : list Event), deliver (teardown i) evs = teardown i)
  ∧ (∀ (s : State) (u : MouseUpEvent),
      mouseMoveListener (onMouseUp u (set_isDragging true s)) = false)
  ∧ (∀ i : Instance, mouseMoveListener (this (teardown i)) = false).
Proof.
  repeat split.
  - intros s u moves.
    destruct (onMouseUp_session u s) as (Hidle & _). simpl in Hidle.
    induction moves as [|m moves IH]; [done|].
    rewrite fmap_cons, run_cons. simpl. by rewrite onMouseMove_idle.
  - intros i evs. induction evs as [|ev evs IH]; [done|].
    unfold deliver in *. simpl. exact IH.
  - intros s u. unfold onMouseUp. simpl. placeholder_shape.
    unfold cleanupListeners. simpl. by destruct (mouseMoveListener s) eqn:E.
  - intros i. unfold teardown, ngOnDestroy, cleanupListeners. simpl.
    by destruct (mouseMoveListener (this i)) eqn:E.
Qed.

(** ** The emitted indices *)

Lemma oldIndex_handle ev s :
  reevaluates ev s = false → oldIndex (handle ev s) = oldIndex s.
Proof.
  destruct ev as [d|m|u]; simpl; intros Hq.
  - by destruct (onMouseDown_session d s) as (_ & -> & _).
  - unfold onMouseMove. destruct (isDragging s); [|done]. simpl in Hq.
    destruct (decide (blockedAxis (inputs s) ≠ Some AxisY)) as [Hy|Hy].
    + rewrite bool_decide_eq_true_2 in Hq by done. simpl in Hq.
      apply bool_decide_eq_false in Hq.
      destruct (mm_elementFromPoint m) as [x|]; [by destruct Hq|].
      by repeat case_decide.
    + by repeat case_decide.
  - by destruct (onMouseUp_session u s) as (_ & -> & _).
Qed.

Lemma oldIndex_quiet evs :
  ∀ s, quiet s evs = true → oldIndex (run s evs) = oldIndex s.
Proof.
  induction evs as [|ev evs IH]; intros s Hq; [done|].
  simpl in Hq. apply andb_true_iff in Hq as [Hev Hq].
  apply negb_true_iff in Hev.
  by rewrite run_cons, (IH _ Hq), oldIndex_handle.
Qed.

Lemma host_oldIndex_run evs :
  ∀ s, host_oldIndex (dom (run s evs)) = host_oldIndex (dom s).
Proof.
  induction evs as [|ev evs IH]; intros s; [done|].
  rewrite run_cons, IH. destruct ev as [d|m|u]; simpl.
  - by destruct (onMouseDown_session d s) as (_ & _ & _ & ->).
  - by destruct (onMouseMove_session m s) as (_ & _ & ->).
  - by destruct (onMouseUp_session u s) as (_ & _ & -> & _).
Qed.

(** What a pointer-up that ends a session emits: the current value of the
    field [oldIndex], and the [oldIndex] property of the host element as it
    was when the directive was constructed, which no handler writes. *)
Lemma onMouseUp_emits c evs u :
  isDragging (run (constructor c) evs) = true →
  changeCurrentElIndex (onMouseUp u (run (constructor c) evs))
  = changeCurrentElIndex (run (constructor c) evs)
    ++ [ {| ListDragReordering.oldIndex := oldIndex (run (constructor c) evs);
            ListDragReordering.newIndex := setup_host_oldIndex c |} ].
Proof.
  intros Hd.
  destruct (onMouseUp_session u (run (constructor c) evs)) as (_ & _ & _ & ->).
  by rewrite Hd, host_oldIndex_run.
Qed.

(** With the vertical axis blocked no event ever re-evaluates the index. *)
Lemma quiet_blocked_y evs :
  ∀ s, blockedAxis (inputs s) = Some AxisY → quiet s evs = true.
Proof.
  induction evs as [|ev evs IH]; intros s Hy; [done|].
  simpl. rewrite IH by (by rewrite inputs_handle).
  destruct ev; simpl; try done.
  rewrite (bool_decide_eq_false_2 (blockedAxis (inputs s) ≠ Some AxisY)) by naive_solver.
  by rewrite andb_false_r.
Qed.

(** C9.  From construction on, as long as no pointer-move has re-evaluated
    the index, the event emitted by the pointer-up that ends a session carries
    [oldIndex = -1], the initial value of the field; [onMouseDown] never
    assigns the field. *)
Theorem first_drag_without_reindex_emits_minus_one :
  ∀ (c : Setup) (evs : list Event) (u : MouseUpEvent),
    quiet (constructor c) evs = true →
    isDragging (run (constructor c) evs) = true →
    changeCurrentElIndex (onMouseUp u (run (constructor c) evs))
    = changeCurrentElIndex (run (constructor c) evs)
      ++ [ {| ListDragReordering.oldIndex := -1;
              ListDragReordering.newIndex := setup_host_oldIndex c |} ]
    ∧ (∀ (d : MouseDownEvent) (s : State),
          oldIndex (state_of (onMouseDown d s)) = oldIndex s).
Proof.
  intros c evs u Hq Hd. split.
  - by rewrite (onMouseUp_emits c evs u Hd), (oldIndex_quiet _ _ Hq).
  - intros d s. by destruct (onMouseDown_session d s) as (_ & -> & _).
Qed.

Lemma first_drag_without_reindex_emits_minus_one_witness :
  let c := Scenario.rows (Some AxisY) Scenario.one_root in
  let evs := [MouseDown (Scenario.press 0);
              MouseMove (Scenario.move 130 70 (Some (Item 1)))] in
  changeCurrentElIndex (onMouseUp Scenario.release (run (constructor c) evs))
  = changeCurrentElIndex (run (constructor c) evs)
    ++ [ {| ListDragReordering.oldIndex := -1;
            ListDragReordering.newIndex := Undefined |} ]
  ∧ (∀ (d : MouseDownEvent) (s : State),
        oldIndex (state_of (onMouseDown d s)) = oldIndex s).
Proof.
  intros c evs.
  apply (first_drag_without_reindex_emits_minus_one c evs Scenario.release);
    vm_compute; reflexivity.
Defined.

(** ** The placeholder never outlives its view *)

Lemma elem_of_detach n x l : n ∈ detach x l → n ∈ l.
Proof. unfold detach. rewrite list_elem_of_filter. tauto. Qed.

Lemma elem_of_place_before n r x l : n ∈ place_before r x l → n = x ∨ n ∈ l.
Proof.
  induction l as [|y l IH]; simpl.
  - rewrite elem_of_cons. tauto.
  - case_decide; rewrite !elem_of_cons; tauto.
Qed.

Lemma elem_of_place_after n x new l : n ∈ place_after x new l → n ∈ new ∨ n ∈ l.
Proof.
  induction l as [|y l IH]; simpl; [tauto|].
  case_decide; rewrite !elem_of_cons, ?elem_of_app; tauto.
Qed.

Lemma elem_of_insertBefore n x r l : n ∈ insertBefore x r l → n = x ∨ n ∈ l.
Proof.
  unfold insertBefore. destruct r as [r|].
  - case_decide; [tauto|]. intros [->|Hn]%elem_of_place_before; [tauto|].
    right. by eapply elem_of_detach.
  - rewrite elem_of_app, list_elem_of_singleton.
    intros [Hn| ->]; [right; by eapply elem_of_detach|tauto].
Qed.

Lemma elem_of_appendChild n x l : n ∈ appendChild x l → n = x ∨ n ∈ l.
Proof. apply (elem_of_insertBefore n x None). Qed.

Lemma tracked_ext s s' :
  children (dom s') = children (dom s) →
  rowPlaceholderViewRef s' = rowPlaceholderViewRef s →
  tracked s → tracked s'.
Proof. unfold tracked. intros -> ->. done. Qed.

Lemma no_placeholder_tracked s : no_placeholder (children (dom s)) → tracked s.
Proof. intros Hc n Hn Hp. rewrite (Hc n Hn) in Hp. done. Qed.

Lemma removeRowPlaceholderElement_clean s :
  tracked s →
  no_placeholder (children (dom (removeRowPlaceholderElement s)))
  ∧ rowPlaceholderViewRef (removeRowPlaceholderElement s) = None.
Proof.
  intros Ht. split; [|apply removeRowPlaceholderElement_post].
  intros n Hn. destruct (is_placeholder n) eqn:Hp; [exfalso|done].
  revert Hn. unfold removeRowPlaceholderElement.
  destruct (rowPlaceholderViewRef s) as [v|] eqn:Hv; simpl;
    destruct (rowPlaceholderElement s) as [el|]; simpl;
    try destruct (attached el _); simpl; unfold detach;
    rewrite ?list_elem_of_filter; intros Hn;
    (assert (n ∈ children (dom s)) as Hin by tauto);
    destruct (Ht n Hin Hp) as (v' & Hv' & Hr);
    rewrite Hv in Hv'; first [congruence | injection Hv' as <-; tauto].
Qed.

Lemma removeRowPlaceholderElement_element_ok s :
  element_ok s → element_ok (removeRowPlaceholderElement s).
Proof.
  intros Hs el Hel.
  destruct (removeRowPlaceholderElement_post s) as [_ [He|(y & He & Hy & _)]];
    simpl in *; [congruence|].
  apply Hs. congruence.
Qed.

(** A fresh view on a child list without placeholders, with its first root
    moved somewhere in the list: the placeholders are tracked. *)
Lemma tracked_fresh_view (s s' : State) (view : EmbeddedViewRef) :
  rowPlaceholderViewRef s' = Some view →
  no_placeholder (children (dom s)) →
  (∀ n, n ∈ children (dom s') → n ∈ rootNodes view ∨ n ∈ children (dom s)) →
  tracked s'.
Proof.
  intros Hv Hc Hsub n Hn Hp. exists view. split; [done|].
  destruct (Hsub n Hn) as [Hr|Hr]; [done|]. by rewrite (Hc n Hr) in Hp.
Qed.

Lemma head_roots_placeholder v k el :
  head (Ph v <$> seq 0 k) = Some el → is_placeholder el = true.
Proof.
  intros Hh%head_Some_elem_of. apply list_elem_of_fmap in Hh as (i & -> & _). done.
Qed.

Lemma createRowPlaceholderElement_tracked tpl s :
  tracked s →
  tracked (state_of (createRowPlaceholderElement tpl s))
  ∧ element_ok (state_of (createRowPlaceholderElement tpl s)).
Proof.
  intros Ht. destruct (removeRowPlaceholderElement_clean s Ht) as [Hc _].
  unfold createRowPlaceholderElement, createEmbeddedView.
  set (s1 := removeRowPlaceholderElement s) in *.
  set (roots := Ph (viewCounter s1) <$> seq 0 (rootCount tpl)).
  simpl. destruct (head roots) as [el|] eqn:Hh; simpl; split.
  - eapply (tracked_fresh_view s1); [done|exact Hc|]. simpl.
    intros n [->|Hn]%elem_of_insertBefore.
    + left. by apply head_Some_elem_of.
    + by apply elem_of_place_after in Hn.
  - intros x [= <-]. by eapply head_roots_placeholder.
  - eapply (tracked_fresh_view s1); [done|exact Hc|]. simpl.
    intros n Hn. by apply elem_of_place_after in Hn.
  - by intros x.
Qed.

Lemma changeRowPlaceholderIndex_tracked tpl index s :
  tracked s →
  tracked (changeRowPlaceholderIndex tpl index s)
  ∧ element_ok (changeRowPlaceholderIndex tpl index s).
Proof.
  intros Ht. destruct (removeRowPlaceholderElement_clean s Ht) as [Hc _].
  unfold changeRowPlaceholderIndex, createEmbeddedView.
  set (s1 := removeRowPlaceholderElement s) in *.
  set (roots := Ph (viewCounter s1) <$> seq 0 (rootCount tpl)).
  simpl. destruct (head roots) as [el|] eqn:Hh; simpl.
  - destruct (_ =? _); (split;
      [eapply (tracked_fresh_view s1); [done|exact Hc|]; simpl
      |intros x [= <-]; by eapply head_roots_placeholder]).
    + intros n [->|Hn]%elem_of_appendChild.
      * left. by apply head_Some_elem_of.
      * by apply elem_of_place_after in Hn.
    + intros n [->|Hn]%elem_of_insertBefore.
      * left. by apply head_Some_elem_of.
      * by apply elem_of_place_after in Hn.
  - split; [|by intros x].
    eapply (tracked_fresh_view s1); [done|exact Hc|]. simpl.
    intros n Hn. by apply elem_of_place_after in Hn.
Qed.

Lemma consistent_constructor c : consistent (constructor c).
Proof.
  split; [|done]. apply no_placeholder_tracked. simpl.
  intros n. rewrite elem_of_app, elem_of_cons, !list_elem_of_fmap.
  intros [(i & -> & _)|[->|(i & -> & _)]]; done.
Qed.

Lemma consistent_onMouseDown e s :
  consistent s → consistent (state_of (onMouseDown e s)).
Proof.
  intros (Ht & Hi & He).
  destruct (onMouseDown_session e s) as (Hd & _). simpl in Hd.
  unfold consistent. rewrite Hd. clear Hd.
  unfold onMouseDown. destruct (grabs e s); [|done]. cbv zeta.
  match goal with |- context [match rowPlaceholder (inputs ?x) with _ => _ end] =>
    assert (tracked x) as Hx by (by apply (tracked_ext s)) end.
  simpl. destruct (rowPlaceholder (inputs s)) as [tpl|]; [|done].
  destruct (createRowPlaceholderElement_tracked tpl _ Hx). done.
Qed.

Lemma consistent_onMouseMove e s :
  consistent s → consistent (onMouseMove e s).
Proof.
  intros (Ht & Hi & He).
  destruct (onMouseMove_session e s) as (Hd & _). simpl in Hd.
  unfold consistent. rewrite Hd. clear Hd.
  unfold onMouseMove. destruct (isDragging s) eqn:Hd; [|done].
  repeat case_decide; simpl;
    try destruct (mm_elementFromPoint e); simpl;
    try destruct (rowPlaceholder (inputs s)); simpl;
    try (split; [by apply (tracked_ext s)|done]);
    match goal with |- context [changeRowPlaceholderIndex ?t ?i ?x] =>
      assert (tracked x) as Hx by (by apply (tracked_ext s));
      destruct (changeRowPlaceholderIndex_tracked t i x Hx) as [Hk1 Hk2]
    end;
    (split; [eapply tracked_ext; [| |exact Hk1]; done|done]).
Qed.

Lemma consistent_onMouseUp e s : consistent s → consistent (onMouseUp e s).
Proof.
  intros Hs. pose proof Hs as (Ht & Hi & He).
  unfold onMouseUp. destruct (isDragging s) eqn:Hd; [|exact Hs].
  cbv zeta.
  match goal with |- context [removeRowPlaceholderElement (removeRowPlaceholderElement ?x)] =>
    assert (tracked x ∧ element_ok x) as [Hx Hy]
      by (split; [apply (tracked_ext s); [| |done]|];
          unfold cleanupListeners; by destruct (mouseMoveListener _));
    destruct (removeRowPlaceholderElement_clean x Hx) as [Hc Hv];
    pose proof (removeRowPlaceholderElement_element_ok x Hy) as Hz;
    rewrite removeRowPlaceholderElement_idem end.
  split; [by apply no_placeholder_tracked|done].
Qed.

Lemma consistent_run evs : ∀ s, consistent s → consistent (run s evs).
Proof.
  induction evs as [|ev evs IH]; intros s Hs; [done|].
  rewrite run_cons. apply IH. destruct ev; simpl;
    auto using consistent_onMouseDown, consistent_onMouseMove, consistent_onMouseUp.
Qed.

Lemma consistent_idle_clean s :
  consistent s → isDragging s = false → no_placeholder (children (dom s)).
Proof.
  intros (Ht & Hi & _) Hd n Hn. destruct (is_placeholder n) eqn:Hp; [|done].
  destruct (Ht n Hn Hp) as (v & Hv & _). rewrite Hi in Hv; done.
Qed.

(** C6.  Whatever events the directive has processed since its construction,
    once a pointer-up has been handled the child list holds no placeholder
    element, the directive holds no view reference, and an element it may
    still point to is detached. *)
Theorem placeholder_destroyed_at_session_end :
  ∀ (c : Setup) (evs : list Event) (u : MouseUpEvent),
    let s' := onMouseUp u (run (constructor c) evs) in
    rowPlaceholderViewRef s' = None
    ∧ no_placeholder (children (dom s'))
    ∧ element_gone s' = true.
Proof.
  intros c evs u s'.
  assert (consistent s') as (Ht & Hi & He)
    by apply consistent_onMouseUp, consistent_run, consistent_constructor.
  assert (isDragging s' = false) as Hd by apply onMouseUp_session.
  assert (no_placeholder (children (dom s'))) as Hc
    by (by apply consistent_idle_clean).
  repeat split; [by apply Hi|done|].
  unfold element_gone. destruct (rowPlaceholderElement s') as [el|] eqn:Hel; [|done].
  unfold attached. rewrite bool_decide_eq_false_2; [done|]. intros Hin.
  specialize (He el Hel). specialize (Hc el Hin). congruence.
Qed.

(** ** Without a placeholder template *)

(** C7.  When the [rowPlaceholder] input is not set, pointer-down and
    pointer-move leave the placeholder machinery untouched (no view, no
    element, the child list as it was), pointer-down completes without a
    [TypeError], and the three handlers treat the rest of the state exactly
    as they do when a template is set. *)
Theorem no_template_skips_placeholder :
  ∀ (s : State) (d : MouseDownEvent) (m : MouseMoveEvent) (u : MouseUpEvent)
    (tpl : TemplateRef),
    rowPlaceholder (inputs s) = None →
    threw (onMouseDown d s) = false
    ∧ placeholder_part (state_of (onMouseDown d s)) = placeholder_part s
    ∧ placeholder_part (onMouseMove m s) = placeholder_part s
    ∧ drag_part (state_of (onMouseDown d s))
      = drag_part (state_of (onMouseDown d (set_rowPlaceholder (Some tpl) s)))
    ∧ drag_part (onMouseMove m s)
      = drag_part (onMouseMove m (set_rowPlaceholder (Some tpl) s))
    ∧ drag_part (onMouseUp u s)
      = drag_part (onMouseUp u (set_rowPlaceholder (Some tpl) s)).
Proof.
  intros s d m u tpl Hnone. repeat split.
  - unfold onMouseDown. destruct (grabs d s); [|done]. simpl. by rewrite Hnone.
  - unfold onMouseDown. destruct (grabs d s); [|done]. simpl. by rewrite Hnone.
  - unfold onMouseMove. destruct (isDragging s); [|done].
    repeat case_decide; simpl; try done;
      destruct (mm_elementFromPoint m); simpl; try done; by rewrite Hnone.
  - unfold onMouseDown, grabs. simpl.
    destruct (bool_decide (dragBy (inputs s) = "") || md_onHandle d); [|done].
    simpl. rewrite Hnone. by placeholder_shape.
  - unfold onMouseMove. simpl. destruct (isDragging s); [|done].
    repeat case_decide; simpl; try done;
      destruct (mm_elementFromPoint m); simpl; try done;
      rewrite Hnone; by placeholder_shape.
  - unfold onMouseUp. simpl. destruct (isDragging s); [|done].
    cbv zeta. placeholder_shape. unfold cleanupListeners. simpl.
    by destruct (mouseMoveListener s).
Qed.

Lemma no_template_skips_placeholder_witness :
  let s := run (constructor (Scenario.rows None None)) [MouseDown (Scenario.press 0)] in
  let d := Scenario.press 0 in
  let m := Scenario.move 100 70 (Some (Item 1)) in
  let u := Scenario.release in
  let tpl := {| rootCount := 1 |} in
  threw (onMouseDown d s) = false
  ∧ placeholder_part (state_of (onMouseDown d s)) = placeholder_part s
  ∧ placeholder_part (onMouseMove m s) = placeholder_part s
  ∧ drag_part (state_of (onMouseDown d s))
    = drag_part (state_of (onMouseDown d (set_rowPlaceholder (Some tpl) s)))
  ∧ drag_part (onMouseMove m s)
    = drag_part (onMouseMove m (set_rowPlaceholder (Some tpl) s))
  ∧ drag_part (onMouseUp u s)
    = drag_part (onMouseUp u (set_rowPlaceholder (Some tpl) s)).
Proof.
  intros s d m u tpl.
  apply (no_template_skips_placeholder s d m u tpl). reflexivity.
Defined.

(** ** Blocked axes *)

(** Under a horizontal lock the handler still re-evaluates the index and
    moves the placeholder as it does without lock. *)
Lemma blocked_x_reindexes_as_free m s :
  blockedAxis (inputs s) = Some AxisX →
  placeholder_part (onMouseMove m s)
  = placeholder_part (onMouseMove m (set_blockedAxis None s))
  ∧ oldIndex (onMouseMove m s) = oldIndex (onMouseMove m (set_blockedAxis None s)).
Proof.
  intros Hx. unfold onMouseMove. simpl. rewrite Hx.
  destruct (isDragging s); [|done].
  repeat case_decide; try congruence. simpl.
  destruct (mm_elementFromPoint m); simpl; [|done].
  destruct (rowPlaceholder (inputs s)) as [tpl|]; [|done].
  unfold changeRowPlaceholderIndex, removeRowPlaceholderElement, createEmbeddedView.
  simpl.
  destruct (rowPlaceholderViewRef s); simpl;
    destruct (rowPlaceholderElement s) as [el|]; simpl;
    try destruct (attached el _); simpl;
    destruct (head _); simpl; try destruct (_ =? _); done.
Qed.

(** Under a vertical lock the handler skips the index computation: the
    placeholder stays where it is and [oldIndex] keeps its value. *)
Lemma blocked_y_skips_reindex m s :
  blockedAxis (inputs s) = Some AxisY →
  placeholder_part (onMouseMove m s) = placeholder_part s
  ∧ oldIndex (onMouseMove m s) = oldIndex s.
Proof.
  intros Hy. unfold onMouseMove. rewrite Hy.
  destruct (isDragging s); [|done]. by repeat case_decide.
Qed.

(** C4.  With the blocked axis ['x'] a pointer-move leaves the [left] of the
    host untouched, with ['y'] its [top]; every other style property and the
    class list of the host come out as they do without a lock. *)
Theorem blocked_axis_frame :
  ∀ (s : State) (m : MouseMoveEvent) (a : Axis),
    blockedAxis (inputs s) = Some a →
    let locked := onMouseMove m s in
    let free := onMouseMove m (set_blockedAxis None s) in
    style (dom locked) !! axis_property a = style (dom s) !! axis_property a
    ∧ (∀ p, p ≠ axis_property a →
            style (dom locked) !! p = style (dom free) !! p)
    ∧ classList (dom locked) = classList (dom free).
Proof.
  intros s m a Ha. unfold onMouseMove. simpl. rewrite Ha.
  destruct (isDragging s); [|done].
  destruct a; repeat case_decide; try congruence; simpl;
    destruct (mm_elementFromPoint m); simpl;
    try destruct (rowPlaceholder (inputs s)); simpl;
    placeholder_shape; simpl;
    (split; [by rewrite ?lookup_insert_ne|]);
    (split; [|done]); intros p Hp;
    rewrite ?(lookup_insert_ne _ "left"), ?(lookup_insert_ne _ "top") by done;
    try done.
  all: destruct (decide (p = "top")) as [->|Hq];
    [by rewrite !lookup_insert_eq|by rewrite !lookup_insert_ne].
Qed.

Lemma blocked_axis_frame_witness :
  let s := run (constructor (Scenario.rows (Some AxisY) Scenario.one_root))
               [MouseDown (Scenario.press 0)] in
  let m := Scenario.move 110 60 (Some (Item 1)) in
  let locked := onMouseMove m s in
  let free := onMouseMove m (set_blockedAxis None s) in
  style (dom locked) !! "top" = style (dom s) !! "top"
  ∧ (∀ p, p ≠ "top" → style (dom locked) !! p = style (dom free) !! p)
  ∧ classList (dom locked) = classList (dom free).
Proof.
  intros s m.
  apply (blocked_axis_frame s m AxisY). reflexivity.
Defined.

(** ** Translation by the cursor delta *)

(** A pointer-move sets [left] (unless ['x'] is blocked) to the layout
    position of the host plus the distance of the cursor from the recorded
    previous position, and records the cursor position. *)
Lemma onMouseMove_translates m s :
  isDragging s = true →
  let s' := onMouseMove m s in
  (blockedAxis (inputs s) ≠ Some AxisX →
     style (dom s') !! "left" = Some (CssPx (mm_offsetLeft m + (mm_clientX m - prevX s))))
  ∧ (blockedAxis (inputs s) ≠ Some AxisY →
     style (dom s') !! "top" = Some (CssPx (mm_offsetTop m + (mm_clientY m - prevY s))))
  ∧ prevX s' = mm_clientX m
  ∧ prevY s' = mm_clientY m.
Proof.
  intros Hd. unfold onMouseMove. rewrite Hd.
  repeat case_decide; simpl;
    try destruct (mm_elementFromPoint m); simpl;
    try destruct (rowPlaceholder (inputs s)); simpl;
    placeholder_shape; simpl;
    repeat split; try done; intros _;
    by rewrite ?(lookup_insert_ne _ "top" "left"), lookup_insert_eq.
Qed.

(** A pointer-down the directive accepts records the page coordinates of the
    press, client position plus window scroll, as previous position. *)
Lemma onMouseDown_records_page_position d s :
  grabs d s = true →
  prevX (state_of (onMouseDown d s)) = md_clientX d + md_scrollX d
  ∧ prevY (state_of (onMouseDown d s)) = md_clientY d + md_scrollY d.
Proof.
  intros Hg. unfold onMouseDown. rewrite Hg. simpl.
  destruct (rowPlaceholder (inputs s)); [|done]. by placeholder_shape.
Qed.

(** C5.  In a window scrolled by 50 pixels, a press at client x = 100
    followed by a first move to client x = 110, the host being laid out at
    left 30, sets [left] to -10: the handler subtracts the recorded 150
    (client x plus scroll), not the previous cursor position 100, so the host
    is not translated by the cursor delta 10 to 40.  The second move, from
    110 to 115, is translated by the cursor delta. *)
Theorem first_move_is_off_by_the_scroll :
  let d := Scenario.press 50 in
  let m := Scenario.move 110 50 None in
  let m2 := Scenario.move 115 50 None in
  let s := run (constructor (Scenario.rows None None)) [MouseDown d] in
  mm_clientX m - md_clientX d = 10
  ∧ style (dom (onMouseMove m s)) !! "left" = Some (CssPx (-10))
  ∧ style (dom (onMouseMove m s)) !! "left" ≠ Some (CssPx (mm_offsetLeft m + 10))
  ∧ style (dom (onMouseMove m2 (onMouseMove m s))) !! "left"
    = Some (CssPx (mm_offsetLeft m2 + (mm_clientX m2 - mm_clientX m))).
Proof. vm_compute. repeat split; congruence. Qed.

(** ** The indices *)

(** A pointer-move that re-evaluates the index stores the computed index in
    [oldIndex]. *)
Lemma onMouseMove_stores_newIndex m s x :
  isDragging s = true →
  blockedAxis (inputs s) ≠ Some AxisY →
  mm_elementFromPoint m = Some x →
  oldIndex (onMouseMove m s)
  = newIndexFor (itemsOf s) x (oldIndex s) (mm_clientY m) (prevY s).
Proof.
  intros Hd Hy Hx. unfold onMouseMove. rewrite Hd, Hx.
  repeat case_decide; try done; simpl;
    destruct (rowPlaceholder (inputs s)); simpl; by placeholder_shape.
Qed.

(** C1.  The host is second of three rows (index 1).  Press, drag over the
    last row, release: just before the release the placeholder is at index 2
    of the child list, and the event emitted carries [oldIndex = 2], the index
    last computed for the placeholder, and [newIndex = undefined]; not the
    pair (1, 2). *)
Theorem release_reports_last_target_and_undefined :
  let s0 := constructor (Scenario.rows None Scenario.one_root) in
  let s := run s0 [MouseDown (Scenario.press 0);
                   MouseMove (Scenario.move 100 70 (Some (Item 1)))] in
  indexOf Host (children (dom s0)) = 1
  ∧ (∃ el, rowPlaceholderElement s = Some el ∧ indexOf el (children (dom s)) = 2)
  ∧ changeCurrentElIndex (onMouseUp Scenario.release s)
    = [ {| ListDragReordering.oldIndex := 2;
           ListDragReordering.newIndex := Undefined |} ].
Proof. vm_compute. repeat split. by eexists. Qed.

(** The index computed by a pointer-move never exceeds the number of
    siblings counted, and is at least [-1] when there is a sibling. *)
Lemma newIndexFor_bounds items x old clientY prevY_ :
  let n := Z.of_nat (length items) in
  newIndexFor items x old clientY prevY_ ≤ n
  ∧ (1 ≤ n → -1 ≤ newIndexFor items x old clientY prevY_).
Proof.
  assert (-1 ≤ indexOf x items < Z.of_nat (length items)) as Hi.
  { induction items as [|y items IH]; simpl; [lia|].
    case_decide; [lia|]. destruct (indexOf x items <? 0) eqn:E; lia. }
  unfold newIndexFor. simpl.
  repeat match goal with
  | |- context [if ?b then _ else _] => destruct b eqn:?
  end; lia.
Qed.

(** The placeholder element is not among the siblings counted. *)
Lemma itemsOf_excludes_placeholder s el :
  rowPlaceholderElement s = Some el → el ∉ itemsOf s.
Proof.
  intros He. unfold itemsOf. rewrite list_elem_of_filter, He. tauto.
Qed.

(** C2.  Press, move over the first row (the placeholder goes to index 0),
    then move upwards with the cursor over the placeholder: the index
    computed for the placeholder is [-1], below the sibling bounds; it is
    stored in [oldIndex] and the placeholder is appended after the three
    rows. *)
Theorem upward_move_computes_minus_one :
  let s := run (constructor (Scenario.rows None Scenario.one_root))
               [MouseDown (Scenario.press 0);
                MouseMove (Scenario.move 100 45 (Some (Item 0)))] in
  let m := Scenario.move 100 40 (Some (Ph 1 0)) in
  oldIndex s = 0
  ∧ rowPlaceholderElement s = Some (Ph 1 0)
  ∧ itemsOf s = [Item 0; Host; Item 1]
  ∧ newIndexFor (itemsOf s) (Ph 1 0) (oldIndex s) (mm_clientY m) (prevY s) = -1
  ∧ oldIndex (onMouseMove m s) = -1
  ∧ children (dom (onMouseMove m s)) = [Item 0; Host; Item 1; Ph 2 0].
Proof. vm_compute. done. Qed.

(** * Further properties of the handlers *)

(** ** The drag handle *)

(** X1.  With a handle class bound, presses that miss the handle start no
    session: from an idle state, any sequence of such presses, moves and
    releases leaves the whole state as it is. *)
Theorem press_off_the_handle_starts_nothing :
  ∀ (s : State) (evs : list Event),
    isDragging s = false →
    dragBy (inputs s) ≠ "" →
    forallb off_handle evs = true →
    run s evs = s.
Proof.
  intros s evs Hidle Hby Hall.
  induction evs as [|ev evs IH]; [done|].
  simpl in Hall. apply andb_true_iff in Hall as [Hev Hall].
  rewrite run_cons.
  assert (handle ev s = s) as ->; [|by apply IH].
  destruct ev as [d|m|u]; simpl.
  - unfold onMouseDown, grabs. simpl in Hev. apply negb_true_iff in Hev.
    by rewrite Hev, bool_decide_eq_false_2.
  - by apply onMouseMove_idle.
  - by apply onMouseUp_idle.
Qed.

Lemma press_off_the_handle_starts_nothing_witness :
  let s := set_inputs {| blockedAxis := None; zIndex := 0; dragBy := "grip";
                         rowPlaceholder := Scenario.one_root |}
             (constructor (Scenario.rows None Scenario.one_root)) in
  run s [MouseDown (Scenario.press 0);
         MouseMove (Scenario.move 100 70 (Some (Item 1)));
         MouseUp Scenario.release] = s.
Proof.
  intros s.
  apply (press_off_the_handle_starts_nothing s); vm_compute; congruence.
Defined.

(** ** The TypeError of a press *)

(** X2.  A press ends in a [TypeError] exactly when it is accepted and the
    bound template has no root element; the session is flagged active by
    every accepted press, the throwing one included. *)
Theorem press_throws_iff_template_has_no_root :
  ∀ (s : State) (d : MouseDownEvent),
    threw (onMouseDown d s)
    = grabs d s
      && match rowPlaceholder (inputs s) with
         | Some tpl => bool_decide (rootCount tpl = 0%nat)
         | None => false
         end
    ∧ isDragging (state_of (onMouseDown d s)) = (grabs d s || isDragging s).
Proof.
  intros s d. split.
  - unfold onMouseDown. destruct (grabs d s); [|done]. simpl.
    destruct (rowPlaceholder (inputs s)) as [tpl|]; [|done].
    unfold createRowPlaceholderElement, createEmbeddedView. simpl.
    by destruct (rootCount tpl).
  - destruct (onMouseDown_session d s) as (-> & _). by destruct (grabs d s).
Qed.

(** ** The index computation *)

(** Case analysis on the integer tests of the goal, innermost first. *)
Ltac test_free a :=
  lazymatch a with
  | context [if _ then _ else _] => fail
  | _ => idtac
  end.

Ltac z_cases :=
  repeat match goal with
  | |- context [Z.ltb ?a ?b] => test_free a; test_free b; destruct (Z.ltb_spec a b)
  | |- context [Z.gtb ?a ?b] => test_free a; test_free b; destruct (Z.gtb_spec a b)
  | |- context [Z.eqb ?a ?b] => test_free a; test_free b; destruct (Z.eqb_spec a b)
  end.

(** X3.  As long as the cursor does not move upwards, the index computed
    over a non-empty list of siblings lies between 0 and their number. *)
Theorem index_within_bounds_unless_moving_up :
  ∀ (items : list node) (x : node) (old clientY prevY_ : Z),
    items ≠ [] →
    prevY_ ≤ clientY →
    0 ≤ newIndexFor items x old clientY prevY_ ≤ Z.of_nat (length items).
Proof.
  intros items x old clientY prevY_ Hne Hup.
  assert (-1 ≤ indexOf x items < Z.of_nat (length items)) as Hi.
  { clear. induction items as [|y items IH]; simpl; [lia|].
    case_decide; [lia|]. destruct (indexOf x items <? 0) eqn:E; lia. }
  assert (1 ≤ Z.of_nat (length items)) as Hn by (destruct items; [done|simpl; lia]).
  unfold newIndexFor.
  assert ((clientY <? prevY_) = false) as -> by (apply Z.ltb_ge; lia).
  rewrite andb_false_r. cbv zeta. z_cases; lia.
Qed.

Lemma index_within_bounds_unless_moving_up_witness :
  0 ≤ newIndexFor [Item 0; Host; Item 1] (Item 1) 0 70 50 ≤ Z.of_nat (length [Item 0; Host; Item 1]).
Proof.
  apply (index_within_bounds_unless_moving_up [Item 0; Host; Item 1] (Item 1) 0 70 50);
    [done|lia].
Defined.

(** X4.  The first index re-evaluation after construction stores the position
    of the element under the cursor among the counted siblings, and 0 when
    the element is not one of them. *)
Theorem first_reindex_takes_the_position_under_the_cursor :
  ∀ (c : Setup) (evs : list Event) (m : MouseMoveEvent) (x : node),
    quiet (constructor c) evs = true →
    isDragging (run (constructor c) evs) = true →
    blockedAxis (setup_inputs c) ≠ Some AxisY →
    mm_elementFromPoint m = Some x →
    oldIndex (onMouseMove m (run (constructor c) evs))
    = Z.max 0 (indexOf x (itemsOf (run (constructor c) evs))).
Proof.
  intros c evs m x Hq Hd Hy Hx.
  rewrite (onMouseMove_stores_newIndex m _ x Hd); [|by rewrite inputs_run|done].
  rewrite (oldIndex_quiet _ _ Hq). change (oldIndex (constructor c)) with (-1).
  set (items := itemsOf _).
  assert (-1 ≤ indexOf x items) as Hi.
  { clear. induction items as [|y items IH]; simpl; [lia|].
    case_decide; [lia|]. destruct (indexOf x items <? 0) eqn:E; lia. }
  unfold newIndexFor. cbv zeta. z_cases; simpl; lia.
Qed.

Lemma first_reindex_takes_the_position_under_the_cursor_witness :
  let c := Scenario.rows None Scenario.one_root in
  let evs := [MouseDown (Scenario.press 0)] in
  let m := Scenario.move 100 70 (Some (Item 1)) in
  oldIndex (onMouseMove m (run (constructor c) evs))
  = Z.max 0 (indexOf (Item 1) (itemsOf (run (constructor c) evs))).
Proof.
  intros c evs m.
  apply (first_reindex_takes_the_position_under_the_cursor c evs m (Item 1));
    vm_compute; congruence.
Defined.

(** ** Following the cursor *)

(** X5.  From the second pointer-move of a session on, the host is placed,
    along every axis that is not blocked, at its layout position plus the
    distance the cursor travelled since the previous pointer-move. *)
Theorem consecutive_moves_follow_the_cursor :
  ∀ (s : State) (m1 m2 : MouseMoveEvent) (a : Axis),
    isDragging s = true →
    blockedAxis (inputs s) ≠ Some a →
    style (dom (onMouseMove m2 (onMouseMove m1 s))) !! axis_property a
    = Some (CssPx match a with
                  | AxisX => mm_offsetLeft m2 + (mm_clientX m2 - mm_clientX m1)
                  | AxisY => mm_offsetTop m2 + (mm_clientY m2 - mm_clientY m1)
                  end).
Proof.
  intros s m1 m2 a Hd Ha.
  destruct (onMouseMove_translates m1 s Hd) as (_ & _ & Hx & Hy).
  destruct (onMouseMove_session m1 s) as (Hd1 & _). simpl in *.
  rewrite Hd in Hd1.
  destruct (onMouseMove_translates m2 _ Hd1) as (Hl & Ht & _).
  simpl in *. rewrite inputs_onMouseMove, Hx in Hl.
  rewrite inputs_onMouseMove, Hy in Ht.
  destruct a; simpl; auto.
Qed.

Lemma consecutive_moves_follow_the_cursor_witness :
  let s := run (constructor (Scenario.rows None None)) [MouseDown (Scenario.press 50)] in
  let m1 := Scenario.move 110 50 None in
  let m2 := Scenario.move 115 50 None in
  style (dom (onMouseMove m2 (onMouseMove m1 s))) !! "left"
  = Some (CssPx (mm_offsetLeft m2 + (mm_clientX m2 - mm_clientX m1))).
Proof.
  intros s m1 m2.
  apply (consecutive_moves_follow_the_cursor s m1 m2 AxisX); vm_compute; congruence.
Defined.

(** ** The inline style and the class of the host *)

Lemma class_added (cls : string) (X : gset string) :
  {[ cls ]} ∪ X ∖ {[ cls ]} = {[ cls ]} ∪ X.
Proof.
  apply set_eq. intros x.
  rewrite !elem_of_union, elem_of_difference, elem_of_singleton.
  destruct (decide (x = cls)); tauto.
Qed.

Lemma class_removed (cls : string) (X : gset string) :
  ({[ cls ]} ∪ X) ∖ {[ cls ]} = X ∖ {[ cls ]}.
Proof.
  apply set_eq. intros x.
  rewrite !elem_of_difference, elem_of_union, elem_of_singleton. tauto.
Qed.

Lemma class_removed_twice (cls : string) (X : gset string) :
  X ∖ {[ cls ]} ∖ {[ cls ]} = X ∖ {[ cls ]}.
Proof.
  apply set_eq. intros x. rewrite !elem_of_difference, elem_of_singleton. tauto.
Qed.

(** Reading fields through the assignments, leaving maps and sets folded. *)
Ltac fields_simpl :=
  cbn [state_of rootNodes view_id isDragging initialX initialY prevX prevY rowPlaceholderViewRef
       rowPlaceholderElement oldIndex mouseMoveListener inputs
       changeCurrentElIndex dom viewCounter children style classList
       host_oldIndex blockedAxis zIndex dragBy rowPlaceholder
       set_isDragging set_initial set_prev set_rowPlaceholderViewRef
       set_rowPlaceholderElement set_oldIndex set_mouseMoveListener set_inputs
       set_dom set_viewCounter emit set_children set_style set_classList
       set_rowPlaceholder set_blockedAxis with_placeholder
       renderer_removeStyleAttribute renderer_setStyle css_parses
       String.eqb Ascii.eqb Bool.eqb andb negb renderer_addClass
       renderer_removeClass renderer_insertBefore renderer_appendChild].

Lemma onMouseDown_host d s :
  grabs d s = true →
  style (dom (state_of (onMouseDown d s)))
  = list_to_map [ ("user-select", CssText "none");
                  ("cursor", CssText "grabbing");
                  ("z-index", CssText "11");
                  ("position", CssText "fixed") ]
  ∧ classList (dom (state_of (onMouseDown d s)))
    = {[ dragging_class ]} ∪ classList (dom s).
Proof.
  intros Hg. unfold onMouseDown. rewrite Hg. cbv zeta.
  fields_simpl.
  destruct (rowPlaceholder (inputs s)); placeholder_shape; fields_simpl;
    (split; [done|]); apply class_added.
Qed.

Lemma onMouseUp_host u s :
  isDragging s = true →
  style (dom (onMouseUp u s)) = ∅
  ∧ classList (dom (onMouseUp u s)) = classList (dom s) ∖ {[ dragging_class ]}.
Proof.
  intros Hd. unfold onMouseUp. rewrite Hd. cbv zeta.
  placeholder_shape. unfold cleanupListeners. fields_simpl.
  by destruct (mouseMoveListener s).
Qed.

Lemma classList_handle ev s :
  classList (dom (handle ev s))
  = match ev with
    | MouseDown d =>
        if grabs d s then {[ dragging_class ]} ∪ classList (dom s)
        else classList (dom s)
    | MouseMove _ => classList (dom s)
    | MouseUp _ =>
        if isDragging s then classList (dom s) ∖ {[ dragging_class ]}
        else classList (dom s)
    end.
Proof.
  destruct ev as [d|m|u]; simpl.
  - destruct (grabs d s) eqn:Hg; [by apply onMouseDown_host|].
    unfold onMouseDown. by rewrite Hg.
  - unfold onMouseMove. destruct (isDragging s); [|done].
    repeat case_decide; simpl;
      try destruct (mm_elementFromPoint m); simpl;
      try destruct (rowPlaceholder (inputs s)); simpl;
      by placeholder_shape.
  - destruct (isDragging s) eqn:Hd; [by apply onMouseUp_host|].
    by rewrite onMouseUp_idle.
Qed.

(** X6.  An accepted press replaces the whole inline style of the host by
    the four declarations of the handler that the browser can parse
    ([position], [z-index], [cursor], [user-select]; the values given for
    [width] and [transition] are dropped), so neither [left] nor [top] of an
    earlier drag, nor any declaration the page had put there, survives it;
    the class list gains the dragging class and keeps the rest. *)
Theorem press_resets_inline_style :
  ∀ (s : State) (d : MouseDownEvent),
    grabs d s = true →
    style (dom (state_of (onMouseDown d s)))
    = list_to_map [ ("user-select", CssText "none");
                    ("cursor", CssText "grabbing");
                    ("z-index", CssText "11");
                    ("position", CssText "fixed") ]
    ∧ style (dom (state_of (onMouseDown d s))) !! "left" = None
    ∧ style (dom (state_of (onMouseDown d s))) !! "top" = None
    ∧ classList (dom (state_of (onMouseDown d s)))
      = {[ dragging_class ]} ∪ classList (dom s).
Proof.
  intros s d Hg. destruct (onMouseDown_host d s Hg) as [-> ->]. done.
Qed.

Lemma press_resets_inline_style_witness :
  let s := set_style {[ "left" := CssPx 12 ]}
             (constructor (Scenario.rows None Scenario.one_root)) in
  let d := Scenario.press 0 in
  style (dom (state_of (onMouseDown d s)))
  = list_to_map [ ("user-select", CssText "none");
                  ("cursor", CssText "grabbing");
                  ("z-index", CssText "11");
                  ("position", CssText "fixed") ]
  ∧ style (dom (state_of (onMouseDown d s))) !! "left" = None
  ∧ style (dom (state_of (onMouseDown d s))) !! "top" = None
  ∧ classList (dom (state_of (onMouseDown d s)))
    = {[ dragging_class ]} ∪ classList (dom s).
Proof.
  intros s d. apply (press_resets_inline_style s d). reflexivity.
Defined.

Lemma classList_run_without_up mid :
  ∀ s, forallb (λ ev, negb (is_up ev)) mid = true →
       classList (dom (run s mid)) ∖ {[ dragging_class ]}
       = classList (dom s) ∖ {[ dragging_class ]}.
Proof.
  induction mid as [|ev mid IH]; intros s Hall; [done|].
  simpl in Hall. apply andb_true_iff in Hall as [Hev Hall].
  rewrite run_cons, (IH _ Hall), classList_handle.
  destruct ev as [d|m|u]; [destruct (grabs d s)| |done];
    by rewrite ?class_removed.
Qed.

(** X7.  A completed drag (an accepted press, any events but a release, a
    release) leaves the host without any inline style, also without the
    declarations it had before the press, and with the class list it had
    before the press less the dragging class. *)
Theorem completed_drag_restores_the_host :
  ∀ (s : State) (d : MouseDownEvent) (mid : list Event) (u : MouseUpEvent),
    grabs d s = true →
    forallb (λ ev, negb (is_up ev)) mid = true →
    style (dom (run s (MouseDown d :: mid ++ [MouseUp u]))) = ∅
    ∧ classList (dom (run s (MouseDown d :: mid ++ [MouseUp u])))
      = classList (dom s) ∖ {[ dragging_class ]}.
Proof.
  intros s d mid u Hg Hmid.
  destruct (onMouseDown_session d s) as (Hd & _). rewrite Hg in Hd.
  destruct (run_without_up mid _ Hmid Hd) as [Hd' _].
  change (run (state_of (onMouseDown d s)) mid) with (run s (MouseDown d :: mid)) in Hd'.
  rewrite app_comm_cons, run_app.
  change (run (run s (MouseDown d :: mid)) [MouseUp u])
    with (onMouseUp u (run s (MouseDown d :: mid))).
  destruct (onMouseUp_host u _ Hd') as [-> ->]. split; [done|].
  assert (forallb (λ ev, negb (is_up ev)) (MouseDown d :: mid) = true) as Hall by done.
  apply (classList_run_without_up _ s Hall).
Qed.

Lemma completed_drag_restores_the_host_witness :
  let s := set_style {[ "color" := CssText "red" ]}
             (constructor (Scenario.rows None Scenario.one_root)) in
  let d := Scenario.press 0 in
  let mid := [MouseMove (Scenario.move 100 70 (Some (Item 1)))] in
  let u := Scenario.release in
  style (dom (run s (MouseDown d :: mid ++ [MouseUp u]))) = ∅
  ∧ classList (dom (run s (MouseDown d :: mid ++ [MouseUp u])))
    = classList (dom s) ∖ {[ dragging_class ]}.
Proof.
  intros s d mid u.
  apply (completed_drag_restores_the_host s d mid u); reflexivity.
Defined.

(** X8.  If the host does not carry the dragging class when the directive is
    constructed, then after any events the host carries it exactly while a
    session is active. *)
Theorem dragging_class_marks_the_session :
  ∀ (c : Setup) (evs : list Event),
    dragging_class ∉ setup_classList c →
    bool_decide (dragging_class ∈ classList (dom (run (constructor c) evs)))
    = isDragging (run (constructor c) evs).
Proof.
  intros c evs Hc.
  assert (∀ s, bool_decide (dragging_class ∈ classList (dom s)) = isDragging s →
               bool_decide (dragging_class ∈ classList (dom (run s evs)))
               = isDragging (run s evs)) as Hrun.
  { induction evs as [|ev evs IH]; intros s Hs; [done|].
    rewrite run_cons. apply IH. rewrite classList_handle.
    destruct ev as [d|m|u]; simpl.
    - destruct (onMouseDown_session d s) as (-> & _).
      destruct (grabs d s); [|done]. apply bool_decide_eq_true_2.
      apply elem_of_union_l. by apply elem_of_singleton.
    - by destruct (onMouseMove_session m s) as (-> & _).
    - destruct (onMouseUp_session u s) as (-> & _).
      destruct (isDragging s); [|done]. apply bool_decide_eq_false_2.
      rewrite elem_of_difference, elem_of_singleton. tauto. }
  apply Hrun. simpl. by apply bool_decide_eq_false_2.
Qed.

Lemma dragging_class_marks_the_session_witness :
  let c := Scenario.rows None Scenario.one_root in
  let evs := [MouseDown (Scenario.press 0);
              MouseMove (Scenario.move 100 70 (Some (Item 1)))] in
  bool_decide (dragging_class ∈ classList (dom (run (constructor c) evs)))
  = isDragging (run (constructor c) evs).
Proof.
  intros c evs.
  apply (dragging_class_marks_the_session c evs). apply not_elem_of_empty.
Defined.

(** ** What is emitted *)

(** X9.  Every event the directive ever emits carries as [newIndex] the value
    the [oldIndex] property of the host element had when the directive was
    constructed; no handler computes it. *)
Theorem emitted_newIndex_is_the_host_property :
  ∀ (c : Setup) (evs : list Event),
    Forall (λ e, ListDragReordering.newIndex e = setup_host_oldIndex c)
           (changeCurrentElIndex (run (constructor c) evs)).
Proof.
  intros c evs.
  assert (∀ s, host_oldIndex (dom s) = setup_host_oldIndex c →
               Forall (λ e, ListDragReordering.newIndex e = setup_host_oldIndex c)
                      (changeCurrentElIndex s) →
               Forall (λ e, ListDragReordering.newIndex e = setup_host_oldIndex c)
                      (changeCurrentElIndex (run s evs))) as Hrun.
  { induction evs as [|ev evs IH]; intros s Hh Hs; [done|].
    rewrite run_cons. destruct ev as [d|m|u]; simpl; apply IH.
    - by destruct (onMouseDown_session d s) as (_ & _ & _ & ->).
    - by destruct (onMouseDown_session d s) as (_ & _ & -> & _).
    - by destruct (onMouseMove_session m s) as (_ & _ & ->).
    - by destruct (onMouseMove_session m s) as (_ & -> & _).
    - by destruct (onMouseUp_session u s) as (_ & _ & -> & _).
    - destruct (onMouseUp_session u s) as (_ & _ & _ & ->).
      apply Forall_app. split; [done|].
      destruct (isDragging s); [|done]. by apply Forall_singleton. }
  apply Hrun; [done|]. simpl. apply Forall_nil_2.
Qed.

(** ** The listener field *)

Lemma mouseMoveListener_handle ev s :
  mouseMoveListener s = false → mouseMoveListener (handle ev s) = false.
Proof.
  intros Hl. destruct ev as [d|m|u]; simpl.
  - unfold onMouseDown. destruct (grabs d s); [|done]. simpl.
    destruct (rowPlaceholder (inputs s)); by placeholder_shape.
  - unfold onMouseMove. destruct (isDragging s); [|done].
    repeat case_decide; simpl;
      try destruct (mm_elementFromPoint m); simpl;
      try destruct (rowPlaceholder (inputs s)); simpl;
      by placeholder_shape.
  - unfold onMouseUp. destruct (isDragging s); [|done]. cbv zeta.
    placeholder_shape. unfold cleanupListeners. simpl. by rewrite Hl.
Qed.

(** X10.  The bound listener the constructor stores is dropped by the first
    release that ends a session and no handler ever stores one again: from
    then on [mouseMoveListener] is undefined whatever events follow, and the
    removal in [cleanupListeners] is never reached again. *)
Theorem listener_field_is_never_restored :
  ∀ (s : State) (u : MouseUpEvent) (evs : list Event),
    isDragging s = true →
    mouseMoveListener (run (onMouseUp u s) evs) = false
    ∧ cleanupListeners (run (onMouseUp u s) evs) = run (onMouseUp u s) evs.
Proof.
  intros s u evs Hd.
  assert (mouseMoveListener (onMouseUp u s) = false) as H0.
  { unfold onMouseUp. rewrite Hd. cbv zeta. placeholder_shape.
    unfold cleanupListeners. simpl. by destruct (mouseMoveListener s) eqn:E. }
  assert (mouseMoveListener (run (onMouseUp u s) evs) = false) as H1.
  { generalize dependent (onMouseUp u s). clear.
    induction evs as [|ev evs IH]; intros s Hs; [done|].
    rewrite run_cons. by apply IH, mouseMoveListener_handle. }
  split; [done|]. unfold cleanupListeners. by rewrite H1.
Qed.

Lemma listener_field_is_never_restored_witness :
  let s := run (constructor (Scenario.rows None Scenario.one_root))
               [MouseDown (Scenario.press 0)] in
  let evs := [MouseDown (Scenario.press 0); MouseUp Scenario.release] in
  mouseMoveListener (run (onMouseUp Scenario.release s) evs) = false
  ∧ cleanupListeners (run (onMouseUp Scenario.release s) evs)
    = run (onMouseUp Scenario.release s) evs.
Proof.
  intros s evs.
  apply (listener_field_is_never_restored s Scenario.release evs). reflexivity.
Defined.

(** ** Blocked axes over a drag *)

(** X11.  A horizontal lock changes nothing of a pointer-move but the [left]
    declaration: the session fields, the computed index, the placeholder and
    the child list come out as without lock. *)
Theorem horizontal_lock_only_skips_left :
  ∀ (s : State) (m : MouseMoveEvent),
    blockedAxis (inputs s) = Some AxisX →
    let locked := onMouseMove m s in
    let free := onMouseMove m (set_blockedAxis None s) in
    placeholder_part locked = placeholder_part free
    ∧ (isDragging locked, prevX locked, prevY locked, oldIndex locked,
       changeCurrentElIndex locked)
      = (isDragging free, prevX free, prevY free, oldIndex free,
         changeCurrentElIndex free)
    ∧ delete "left" (style (dom locked)) = delete "left" (style (dom free)).
Proof.
  intros s m Hx. unfold onMouseMove. simpl. rewrite Hx.
  destruct (isDragging s); [|done].
  repeat case_decide; try congruence. simpl.
  destruct (mm_elementFromPoint m); simpl;
    [destruct (rowPlaceholder (inputs s)) as [tpl|]|].
  - unfold changeRowPlaceholderIndex, removeRowPlaceholderElement, createEmbeddedView.
    simpl.
    destruct (rowPlaceholderViewRef s); simpl;
      destruct (rowPlaceholderElement s) as [el|]; simpl;
      try destruct (attached el _); simpl;
      destruct (head _); simpl; try destruct (_ =? _); simpl;
      repeat split; try done;
      by rewrite !(delete_insert_ne _ "left" "top"), delete_insert_eq.
  - simpl. repeat split; try done.
    by rewrite !(delete_insert_ne _ "left" "top"), delete_insert_eq.
  - repeat split; try done.
    by rewrite !(delete_insert_ne _ "left" "top"), delete_insert_eq.
Qed.

Lemma horizontal_lock_only_skips_left_witness :
  let s := run (constructor (Scenario.rows (Some AxisX) Scenario.one_root))
               [MouseDown (Scenario.press 0)] in
  let m := Scenario.move 110 70 (Some (Item 1)) in
  let locked := onMouseMove m s in
  let free := onMouseMove m (set_blockedAxis None s) in
  placeholder_part locked = placeholder_part free
  ∧ (isDragging locked, prevX locked, prevY locked, oldIndex locked,
     changeCurrentElIndex locked)
    = (isDragging free, prevX free, prevY free, oldIndex free,
       changeCurrentElIndex free)
  ∧ delete "left" (style (dom locked)) = delete "left" (style (dom free)).
Proof.
  intros s m. apply (horizontal_lock_only_skips_left s m). reflexivity.
Defined.

(** X12.  Under a vertical lock the pointer-moves of a drag never relocate
    the placeholder and never touch [oldIndex]: the placeholder stays where
    the press put it until the release. *)
Theorem vertical_lock_freezes_the_placeholder :
  ∀ (s : State) (evs : list Event),
    blockedAxis (inputs s) = Some AxisY →
    forallb is_move evs = true →
    placeholder_part (run s evs) = placeholder_part s
    ∧ oldIndex (run s evs) = oldIndex s.
Proof.
  intros s evs. revert s.
  induction evs as [|ev evs IH]; intros s Hy Hall; [done|].
  simpl in Hall. apply andb_true_iff in Hall as [Hev Hall].
  destruct ev as [d|m|u]; try done.
  rewrite run_cons. simpl.
  destruct (blocked_y_skips_reindex m s Hy) as [Hp Ho].
  destruct (IH (onMouseMove m s)) as [-> ->]; [by rewrite inputs_onMouseMove|done|].
  done.
Qed.

Lemma vertical_lock_freezes_the_placeholder_witness :
  let s := run (constructor (Scenario.rows (Some AxisY) Scenario.one_root))
               [MouseDown (Scenario.press 0)] in
  let evs := [MouseMove (Scenario.move 110 70 (Some (Item 1)));
              MouseMove (Scenario.move 120 90 (Some (Item 1)))] in
  placeholder_part (run s evs) = placeholder_part s
  ∧ oldIndex (run s evs) = oldIndex s.
Proof.
  intros s evs.
  apply (vertical_lock_freezes_the_placeholder s evs); reflexivity.
Defined.

(** ** The make-up of the child list *)

Lemma rows_of_filter (Q : node → Prop) `{∀ x, Decision (Q x)} l :
  (∀ y, is_placeholder y = false → Q y) →
  rows_of (filter Q l) = rows_of l.
Proof.
  intros HQ. unfold rows_of. rewrite list_filter_filter.
  apply list_filter_iff. intros y. split; [tauto|]. intros Hy. split; [done|auto].
Qed.

Lemma rows_of_detach x l :
  is_placeholder x = true → rows_of (detach x l) = rows_of l.
Proof. intros Hx. apply rows_of_filter. intros y Hy ->. congruence. Qed.

Lemma rows_of_place_before r x l :
  is_placeholder x = true → rows_of (place_before r x l) = rows_of l.
Proof.
  intros Hx. unfold rows_of.
  induction l as [|y l IH]; simpl.
  - rewrite filter_cons_False; [done|congruence].
  - case_decide.
    + rewrite (filter_cons_False _ x); [done|congruence].
    + by rewrite !filter_cons, IH.
Qed.

Lemma rows_of_place_after x new l :
  rows_of new = [] → rows_of (place_after x new l) = rows_of l.
Proof.
  intros Hnew. unfold rows_of in *.
  induction l as [|y l IH]; simpl; [done|].
  case_decide.
  - by rewrite !filter_cons, filter_app, Hnew.
  - by rewrite !filter_cons, IH.
Qed.

Lemma rows_of_insertBefore x r l :
  is_placeholder x = true → rows_of (insertBefore x r l) = rows_of l.
Proof.
  intros Hx. unfold insertBefore. destruct r as [r|].
  - case_decide; [done|]. by rewrite rows_of_place_before, rows_of_detach.
  - unfold rows_of at 1. rewrite filter_app, filter_cons_False by congruence.
    rewrite filter_nil, app_nil_r. by apply rows_of_detach.
Qed.

Lemma placeholders_of_detach x l :
  placeholders_of (detach x l) = detach x (placeholders_of l).
Proof.
  unfold placeholders_of, detach. rewrite !list_filter_filter.
  apply list_filter_iff. tauto.
Qed.

Lemma placeholders_of_place_before r x l :
  is_placeholder x = true →
  placeholders_of (place_before r x l) ≡ₚ x :: placeholders_of l.
Proof.
  intros Hx. unfold placeholders_of.
  induction l as [|y l IH]; simpl.
  - by rewrite filter_cons_True.
  - case_decide.
    + by rewrite (filter_cons_True _ x).
    + rewrite !filter_cons. case_decide; [|done].
      rewrite IH. apply Permutation_swap.
Qed.

Lemma placeholders_of_place_after x new l :
  x ∈ l → placeholders_of l = [] → placeholders_of new = new →
  placeholders_of (place_after x new l) = new.
Proof.
  intros Hin Hl Hnew. unfold placeholders_of in *.
  induction l as [|y l IH]; simpl; [by apply elem_of_nil in Hin|].
  rewrite filter_cons in Hl.
  destruct (decide (is_placeholder y = true)) as [|Hy]; [done|].
  case_decide.
  - by rewrite filter_cons_False, filter_app, Hnew, Hl, app_nil_r.
  - rewrite filter_cons_False by done. apply IH; [|done].
    apply elem_of_cons in Hin as [->|]; done.
Qed.

Lemma detach_absent x (l : list node) : x ∉ l → detach x l = l.
Proof.
  unfold detach. induction l as [|z l IH]; intros Hx; [done|].
  rewrite filter_cons_True; [|by intros ->; apply Hx; left].
  f_equal. apply IH. intros Hz. apply Hx. by right.
Qed.

Lemma cons_detach x (l : list node) :
  NoDup l → x ∈ l → x :: detach x l ≡ₚ l.
Proof.
  induction 1 as [|y l Hy Hnd IH]; intros Hin.
  - by apply elem_of_nil in Hin.
  - unfold detach in *. rewrite filter_cons. case_decide as Hne.
    + apply elem_of_cons in Hin as [->|Hin]; [done|].
      rewrite Permutation_swap. by rewrite IH.
    + assert (y = x) as -> by (by destruct (decide (y = x))).
      fold (detach x l). by rewrite (detach_absent x l Hy).
Qed.

Lemma placeholders_of_insertBefore x r l :
  is_placeholder x = true → x ∈ l → NoDup (placeholders_of l) →
  placeholders_of (insertBefore x r l) ≡ₚ placeholders_of l.
Proof.
  intros Hx Hin Hnd.
  assert (x ∈ placeholders_of l) as Hxp.
  { unfold placeholders_of. by apply list_elem_of_filter. }
  unfold insertBefore. destruct r as [r|].
  - case_decide; [done|].
    rewrite placeholders_of_place_before, placeholders_of_detach by done.
    by apply cons_detach.
  - unfold placeholders_of at 1. rewrite filter_app, filter_cons_True by done.
    rewrite filter_nil. fold (placeholders_of (detach x l)).
    rewrite placeholders_of_detach, <- Permutation_cons_append.
    by apply cons_detach.
Qed.

Lemma no_placeholder_placeholders_of l :
  no_placeholder l ↔ placeholders_of l = [].
Proof.
  unfold no_placeholder, placeholders_of. split.
  - intros Hl. apply elem_of_nil_inv. intros x [Hx Hin]%list_elem_of_filter.
    rewrite (Hl x Hin) in Hx. done.
  - intros Hl x Hin. destruct (is_placeholder x) eqn:Hx; [|done].
    by destruct (filter_nil_not_elem_of _ l x Hl Hx).
Qed.

Lemma rows_of_all l : placeholders_of l = [] → rows_of l = l.
Proof.
  intros Hl%no_placeholder_placeholders_of. unfold rows_of.
  induction l as [|y l IH]; [done|].
  rewrite filter_cons_True by (apply Hl; left).
  f_equal. apply IH. intros x Hx. apply Hl. by right.
Qed.

Lemma length_rows_placeholders l :
  length l = (length (rows_of l) + length (placeholders_of l))%nat.
Proof.
  unfold rows_of, placeholders_of. induction l as [|y l IH]; [done|].
  rewrite !filter_cons. destruct (is_placeholder y); simpl;
    repeat case_decide; try done; simpl; lia.
Qed.

#[local] Instance Ph_inj v : Inj (=) (=) (Ph v).
Proof. by intros i j [= ->]. Qed.

Lemma roots_placeholders v k :
  placeholders_of (Ph v <$> seq 0 k) = Ph v <$> seq 0 k
  ∧ rows_of (Ph v <$> seq 0 k) = []
  ∧ NoDup (Ph v <$> seq 0 k).
Proof.
  repeat split.
  - unfold placeholders_of. generalize (seq 0 k). intros l.
    induction l as [|i l IH]; [done|]. rewrite fmap_cons, filter_cons_True by done.
    by rewrite IH.
  - unfold rows_of. generalize (seq 0 k). intros l.
    induction l as [|i l IH]; [done|]. by rewrite fmap_cons, filter_cons_False.
  - apply (NoDup_fmap_2 _), NoDup_seq.
Qed.

Lemma arranged_tracked rows s : arranged rows s → tracked s.
Proof.
  intros (_ & _ & Hv) n Hn Hp.
  assert (n ∈ placeholders_of (children (dom s))) as Hin
    by (by apply list_elem_of_filter).
  destruct (rowPlaceholderViewRef s) as [v|].
  - exists v. split; [done|]. destruct Hv as (_ & Hperm & _). by rewrite <- Hperm.
  - rewrite Hv in Hin. by apply elem_of_nil in Hin.
Qed.

Lemma arranged_ext rows s s' :
  children (dom s') = children (dom s) →
  rowPlaceholderViewRef s' = rowPlaceholderViewRef s →
  rowPlaceholderElement s' = rowPlaceholderElement s →
  inputs s' = inputs s →
  arranged rows s → arranged rows s'.
Proof.
  unfold arranged, element_ok, view_of_template. intros -> -> -> ->. done.
Qed.

Lemma arranged_host rows s : Host ∈ rows → arranged rows s → Host ∈ children (dom s).
Proof.
  intros Hh (<- & _). unfold rows_of in Hh.
  by apply list_elem_of_filter in Hh as [_ ?].
Qed.

Lemma removeRowPlaceholderElement_rows s :
  element_ok s →
  (∀ v, rowPlaceholderViewRef s = Some v → rows_of (rootNodes v) = []) →
  rows_of (children (dom (removeRowPlaceholderElement s)))
  = rows_of (children (dom s)).
Proof.
  intros He Hv. unfold removeRowPlaceholderElement, destroy.
  assert (∀ v, rowPlaceholderViewRef s = Some v →
               rows_of (filter (λ y, y ∉ rootNodes v) (children (dom s)))
               = rows_of (children (dom s))) as Hd.
  { intros v Hs. apply rows_of_filter. intros y Hy Hin.
    assert (y ∈ rows_of (rootNodes v)) as Hr by (by apply list_elem_of_filter).
    rewrite (Hv v Hs) in Hr. by apply elem_of_nil in Hr. }
  destruct (rowPlaceholderViewRef s) as [v|]; fields_simpl;
    destruct (rowPlaceholderElement s) as [el|] eqn:Hel; fields_simpl;
    try destruct (attached el _); fields_simpl;
    rewrite ?rows_of_detach by (by apply He); auto.
Qed.

Lemma removeRowPlaceholderElement_arranged rows s :
  arranged rows s →
  arranged rows (removeRowPlaceholderElement s)
  ∧ rowPlaceholderViewRef (removeRowPlaceholderElement s) = None.
Proof.
  intros Ha. pose proof (arranged_tracked _ _ Ha) as Ht.
  destruct Ha as (Hr & He & Hv).
  destruct (removeRowPlaceholderElement_clean s Ht) as [Hc Hn].
  split; [|done]. split; [|split].
  - rewrite removeRowPlaceholderElement_rows; [done|done|].
    intros v Hs. rewrite Hs in Hv. destruct Hv as ((tpl & _ & ->) & _).
    apply roots_placeholders.
  - by apply removeRowPlaceholderElement_element_ok.
  - rewrite Hn. by apply no_placeholder_placeholders_of.
Qed.

(** The state reached by instantiating the template in a state without view
    and moving the first root somewhere in the child list. *)
Lemma arranged_new_view rows tpl (s1 s' : State) (ref : option node) :
  Host ∈ rows →
  arranged rows s1 →
  rowPlaceholderViewRef s1 = None →
  rowPlaceholder (inputs s1) = Some tpl →
  inputs s' = inputs s1 →
  rowPlaceholderViewRef s'
  = Some {| view_id := viewCounter s1;
            rootNodes := Ph (viewCounter s1) <$> seq 0 (rootCount tpl) |} →
  rowPlaceholderElement s' = head (Ph (viewCounter s1) <$> seq 0 (rootCount tpl)) →
  children (dom s')
  = match head (Ph (viewCounter s1) <$> seq 0 (rootCount tpl)) with
    | Some el =>
        insertBefore el ref
          (place_after Host (Ph (viewCounter s1) <$> seq 0 (rootCount tpl))
                       (children (dom s1)))
    | None =>
        place_after Host (Ph (viewCounter s1) <$> seq 0 (rootCount tpl))
                    (children (dom s1))
    end →
  arranged rows s'.
Proof.
  intros Hh Ha Hnone Htpl Hin Hview Hel Hch.
  pose proof (arranged_host _ _ Hh Ha) as Hhost.
  destruct Ha as (Hr & He & Hv). rewrite Hnone in Hv.
  destruct (roots_placeholders (viewCounter s1) (rootCount tpl)) as (Hpp & Hpr & Hnd).
  set (roots := Ph (viewCounter s1) <$> seq 0 (rootCount tpl)) in *.
  set (c2 := place_after Host roots (children (dom s1))) in *.
  assert (rows_of c2 = rows) as Hr2 by (by unfold c2; rewrite rows_of_place_after).
  assert (placeholders_of c2 = roots) as Hp2
    by (by apply placeholders_of_place_after).
  unfold arranged. rewrite Hview, Hch, Hel. fields_simpl.
  destruct (head roots) as [el|] eqn:Hhd.
  - assert (el ∈ roots) as Helr by (by apply head_Some_elem_of).
    assert (is_placeholder el = true) as Hph by (by eapply head_roots_placeholder).
    split; [by rewrite rows_of_insertBefore|].
    split; [by intros x Hx; rewrite Hel in Hx; injection Hx as <-|].
    split; [exists tpl; by rewrite Hin|]. split; [|done].
    rewrite placeholders_of_insertBefore, Hp2; [done|done| |by rewrite Hp2].
    rewrite <- Hp2 in Helr. unfold placeholders_of in Helr.
    by apply list_elem_of_filter in Helr as [_ ?].
  - split; [done|]. split; [by intros x Hx; rewrite Hel in Hx|].
    split; [exists tpl; by rewrite Hin|]. by rewrite Hp2.
Qed.

Lemma removeRowPlaceholderElement_keeps s :
  inputs (removeRowPlaceholderElement s) = inputs s
  ∧ viewCounter (removeRowPlaceholderElement s) = viewCounter s
  ∧ isDragging (removeRowPlaceholderElement s) = isDragging s.
Proof. by placeholder_shape. Qed.

Lemma createRowPlaceholderElement_arranged rows tpl s :
  Host ∈ rows →
  arranged rows s →
  rowPlaceholder (inputs s) = Some tpl →
  arranged rows (state_of (createRowPlaceholderElement tpl s))
  ∧ is_Some (rowPlaceholderViewRef (state_of (createRowPlaceholderElement tpl s)))
  ∧ isDragging (state_of (createRowPlaceholderElement tpl s)) = isDragging s.
Proof.
  intros Hh Ha Ht.
  destruct (removeRowPlaceholderElement_arranged rows s Ha) as [Ha1 Hn1].
  destruct (removeRowPlaceholderElement_keeps s) as (Hi1 & _ & Hd1).
  rewrite <- Hi1 in Ht. rewrite <- Hd1.
  unfold createRowPlaceholderElement, createEmbeddedView.
  set (s1 := removeRowPlaceholderElement s) in *. fields_simpl.
  destruct (head (Ph (viewCounter s1) <$> seq 0 (rootCount tpl))) as [el|] eqn:Hhd;
    fields_simpl; (split; [|by split; [eexists|]]).
  - eapply (arranged_new_view rows tpl s1 _
              (nextSibling Host (place_after Host
                 (Ph (viewCounter s1) <$> seq 0 (rootCount tpl)) (children (dom s1)))));
      try done; fields_simpl; by rewrite ?Hhd.
  - eapply (arranged_new_view rows tpl s1 _ None);
      try done; fields_simpl; by rewrite ?Hhd.
Qed.

Lemma changeRowPlaceholderIndex_arranged rows tpl index s :
  Host ∈ rows →
  arranged rows s →
  rowPlaceholder (inputs s) = Some tpl →
  arranged rows (changeRowPlaceholderIndex tpl index s)
  ∧ is_Some (rowPlaceholderViewRef (changeRowPlaceholderIndex tpl index s))
  ∧ isDragging (changeRowPlaceholderIndex tpl index s) = isDragging s.
Proof.
  intros Hh Ha Ht.
  destruct (removeRowPlaceholderElement_arranged rows s Ha) as [Ha1 Hn1].
  destruct (removeRowPlaceholderElement_keeps s) as (Hi1 & _ & Hd1).
  rewrite <- Hi1 in Ht. rewrite <- Hd1.
  unfold changeRowPlaceholderIndex, createEmbeddedView.
  set (s1 := removeRowPlaceholderElement s) in *. fields_simpl.
  destruct (head (Ph (viewCounter s1) <$> seq 0 (rootCount tpl))) as [el|] eqn:Hhd;
    fields_simpl; [destruct (_ =? _); fields_simpl|];
    (split; [|by split; [eexists|]]).
  - eapply (arranged_new_view rows tpl s1 _ None);
      try done; fields_simpl; by rewrite ?Hhd.
  - eapply (arranged_new_view rows tpl s1 _
              (item index (place_after Host
                 (Ph (viewCounter s1) <$> seq 0 (rootCount tpl)) (children (dom s1)))));
      try done; fields_simpl; by rewrite ?Hhd.
  - eapply (arranged_new_view rows tpl s1 _ None);
      try done; fields_simpl; by rewrite ?Hhd.
Qed.

(** Without template no view is ever held. *)
Lemma arranged_no_template rows s :
  arranged rows s → rowPlaceholder (inputs s) = None →
  rowPlaceholderViewRef s = None.
Proof.
  intros (_ & _ & Hv) Hn. destruct (rowPlaceholderViewRef s) as [v|]; [|done].
  destruct Hv as ((tpl & Ht & _) & _). congruence.
Qed.

Lemma steady_onMouseDown rows d s :
  Host ∈ rows →
  arranged rows s ∧ in_step s →
  arranged rows (state_of (onMouseDown d s)) ∧ in_step (state_of (onMouseDown d s)).
Proof.
  intros Hh [Ha Hs]. unfold onMouseDown. destruct (grabs d s); [|done]. cbv zeta.
  match goal with |- context [match rowPlaceholder (inputs ?x) with _ => _ end] =>
    assert (arranged rows x) as Hx by (by apply (arranged_ext rows s));
    assert (isDragging x = true) as Hd by done;
    assert (inputs x = inputs s) as Hi by done;
    set (y := x) in *; clearbody y
  end.
  rewrite Hi. destruct (rowPlaceholder (inputs s)) as [tpl|] eqn:Ht.
  - destruct (createRowPlaceholderElement_arranged rows tpl y Hh Hx) as (Hr & [v Hv] & Hk);
      [by rewrite Hi|].
    split; [done|]. unfold in_step. rewrite Hv. congruence.
  - fields_simpl. split; [done|]. unfold in_step.
    rewrite (arranged_no_template rows y Hx) by (by rewrite Hi). by rewrite Hi.
Qed.

Lemma steady_onMouseMove rows m s :
  Host ∈ rows →
  arranged rows s ∧ in_step s →
  arranged rows (onMouseMove m s) ∧ in_step (onMouseMove m s).
Proof.
  intros Hh [Ha Hs]. unfold onMouseMove.
  destruct (isDragging s) eqn:Hd; [|done].
  assert (∀ s', children (dom s') = children (dom s) →
                rowPlaceholderViewRef s' = rowPlaceholderViewRef s →
                rowPlaceholderElement s' = rowPlaceholderElement s →
                inputs s' = inputs s → isDragging s' = isDragging s →
                arranged rows s' ∧ in_step s') as Hsame.
  { intros s' H1 H2 H3 H4 H5. split; [by apply (arranged_ext rows s)|].
    unfold in_step in *. by rewrite H2, H4, H5. }
  repeat case_decide; fields_simpl;
    try destruct (mm_elementFromPoint m) as [x|]; fields_simpl;
    try destruct (rowPlaceholder (inputs s)) as [tpl|] eqn:Ht; fields_simpl;
    try (by apply Hsame);
    match goal with |- context [changeRowPlaceholderIndex ?t ?i ?y] =>
      destruct (changeRowPlaceholderIndex_arranged rows t i y Hh) as (Hr & [v Hv] & Hk);
        [by apply (arranged_ext rows s)|done|]
    end;
    (split; [by eapply arranged_ext; [| | | |exact Hr]|]);
    unfold in_step; fields_simpl; rewrite Hv, Hk; done.
Qed.

Lemma steady_onMouseUp rows u s :
  arranged rows s ∧ in_step s →
  arranged rows (onMouseUp u s) ∧ in_step (onMouseUp u s).
Proof.
  intros [Ha Hs]. unfold onMouseUp. destruct (isDragging s) eqn:Hd; [|done].
  cbv zeta. rewrite removeRowPlaceholderElement_idem.
  match goal with |- context [removeRowPlaceholderElement ?x] =>
    assert (arranged rows x) as Hx
      by (apply (arranged_ext rows s); try done;
          unfold cleanupListeners; by destruct (mouseMoveListener _));
    assert (isDragging x = false) as Hf
      by (unfold cleanupListeners; fields_simpl; by destruct (mouseMoveListener _));
    destruct (removeRowPlaceholderElement_arranged rows x Hx) as [Hr Hn];
    destruct (removeRowPlaceholderElement_keeps x) as (_ & _ & Hk);
    set (y := removeRowPlaceholderElement x) in *; clearbody y
  end.
  split; [by apply (arranged_ext rows y)|].
  unfold in_step. fields_simpl. rewrite Hn. congruence.
Qed.

Lemma steady_run rows evs :
  Host ∈ rows →
  ∀ s, arranged rows s ∧ in_step s → arranged rows (run s evs) ∧ in_step (run s evs).
Proof.
  intros Hh. induction evs as [|ev evs IH]; intros s Hs; [done|].
  rewrite run_cons. apply IH. destruct ev; simpl;
    auto using steady_onMouseDown, steady_onMouseMove, steady_onMouseUp.
Qed.

Lemma setup_children_rows c :
  Host ∈ setup_children c
  ∧ rows_of (setup_children c) = setup_children c
  ∧ placeholders_of (setup_children c) = [].
Proof.
  assert (no_placeholder (setup_children c)) as Hn.
  { intros n. unfold setup_children.
    rewrite elem_of_app, elem_of_cons, !list_elem_of_fmap.
    intros [(i & -> & _)|[->|(i & -> & _)]]; done. }
  apply no_placeholder_placeholders_of in Hn.
  split; [|split; [by apply rows_of_all|done]].
  unfold setup_children. apply elem_of_app. right. by left.
Qed.

Lemma steady_constructor c evs :
  arranged (setup_children c) (run (constructor c) evs)
  ∧ in_step (run (constructor c) evs).
Proof.
  destruct (setup_children_rows c) as (Hh & Hr & Hp).
  apply steady_run; [done|]. split; [|done].
  split; [exact Hr|]. split; [done|exact Hp].
Qed.

(** X13.  The directive never adds, removes or reorders an element of the
    page: whatever events it has processed since its construction, the child
    list without the placeholder elements is the list the constructor found. *)
Theorem rows_are_never_touched :
  ∀ (c : Setup) (evs : list Event),
    rows_of (children (dom (run (constructor c) evs))) = setup_children c.
Proof. intros c evs. apply steady_constructor. Qed.

(** X14.  Once a release has been handled the child list is exactly the list
    the constructor found: the drag itself leaves the order of the rows to
    the receiver of the event. *)
Theorem release_leaves_the_list_as_found :
  ∀ (c : Setup) (evs : list Event) (u : MouseUpEvent),
    children (dom (onMouseUp u (run (constructor c) evs))) = setup_children c.
Proof.
  intros c evs u.
  change (onMouseUp u (run (constructor c) evs))
    with (run (run (constructor c) evs) [MouseUp u]).
  rewrite <- run_app.
  destruct (steady_constructor c (evs ++ [MouseUp u])) as [(Hr & _ & Hv) Hs].
  rewrite <- Hr. symmetry. apply rows_of_all.
  unfold in_step in Hs.
  destruct (rowPlaceholderViewRef _) as [v|]; [|done].
  rewrite run_app in Hs.
  change (run (run (constructor c) evs) [MouseUp u])
    with (onMouseUp u (run (constructor c) evs)) in Hs.
  destruct (onMouseUp_session u (run (constructor c) evs)) as (Hf & _).
  simpl in Hf. congruence.
Qed.

(** X15.  After any events since construction, the child list holds as many
    placeholder elements as the bound template has root elements while a
    session is active, and none otherwise (none at all without template). *)
Theorem placeholders_match_the_session :
  ∀ (c : Setup) (evs : list Event),
    length (placeholders_of (children (dom (run (constructor c) evs))))
    = if isDragging (run (constructor c) evs)
      then template_roots (setup_inputs c)
      else 0%nat.
Proof.
  intros c evs.
  destruct (steady_constructor c evs) as [(_ & _ & Hv) Hs].
  unfold in_step, template_roots in *.
  change (setup_inputs c) with (inputs (constructor c)).
  rewrite <- (inputs_run evs (constructor c)).
  destruct (rowPlaceholderViewRef _) as [v|].
  - destruct Hv as ((tpl & Ht & Hroots) & Hperm & _).
    rewrite Hs, Ht, Hperm, Hroots, length_fmap. apply length_seq.
  - rewrite Hv. destruct (isDragging _); [|done]. by rewrite Hs.
Qed.

(** ** Where the placeholder goes *)

Lemma nextSibling_place_after x el rest l :
  x ∈ l → nextSibling x (place_after x (el :: rest) l) = Some el.
Proof.
  induction l as [|y l IH]; intros Hin; [by apply elem_of_nil in Hin|].
  simpl. case_decide as Hy.
  - simpl. by rewrite decide_True.
  - simpl. rewrite decide_False by done. apply IH.
    apply elem_of_cons in Hin as [->|]; done.
Qed.

(** X16.  In a directive bound to a template whose root nodes are elements,
    at least one, an accepted press, whatever events came before, makes the
    first root of a fresh view the placeholder and leaves it as the next
    element sibling of the host. *)
Theorem press_puts_the_placeholder_after_the_host :
  ∀ (c : Setup) (evs : list Event) (d : MouseDownEvent) (tpl : TemplateRef),
    grabs d (run (constructor c) evs) = true →
    rowPlaceholder (setup_inputs c) = Some tpl →
    rootCount tpl ≠ 0%nat →
    let s := run (constructor c) evs in
    let s' := state_of (onMouseDown d s) in
    rowPlaceholderElement s' = Some (Ph (viewCounter s) 0)
    ∧ nextSibling Host (children (dom s')) = Some (Ph (viewCounter s) 0).
Proof.
  intros c evs d tpl Hg Ht Hk s s'. subst s'.
  destruct (steady_constructor c evs) as [Ha _]. fold s in Ha, Hg.
  destruct (setup_children_rows c) as (Hh & _).
  assert (rowPlaceholder (inputs s) = Some tpl) as Hts
    by (by unfold s; rewrite inputs_run).
  unfold onMouseDown. rewrite Hg. cbv zeta.
  match goal with |- context [match rowPlaceholder (inputs ?x) with _ => _ end] =>
    assert (arranged (setup_children c) x) as Hx
      by (by apply (arranged_ext _ s));
    assert (inputs x = inputs s) as Hi by done;
    assert (viewCounter x = viewCounter s) as Hc by done;
    set (y := x) in *; clearbody y
  end.
  rewrite Hi, Hts, <- Hc.
  destruct (removeRowPlaceholderElement_arranged _ y Hx) as [Ha1 _].
  pose proof (arranged_host _ _ Hh Ha1) as Hhost.
  destruct (removeRowPlaceholderElement_keeps y) as (_ & <- & _).
  unfold createRowPlaceholderElement, createEmbeddedView.
  set (s1 := removeRowPlaceholderElement y) in *. fields_simpl.
  destruct (rootCount tpl) as [|k]; [done|].
  cbn [seq fmap list_fmap head]. fields_simpl.
  rewrite nextSibling_place_after by done.
  unfold insertBefore. rewrite decide_True by done.
  split; [done|]. by apply nextSibling_place_after.
Qed.

Lemma press_puts_the_placeholder_after_the_host_witness :
  let c := Scenario.rows None Scenario.one_root in
  let evs := [MouseDown (Scenario.press 0);
              MouseMove (Scenario.move 100 70 (Some (Item 1)));
              MouseUp Scenario.release] in
  let s := run (constructor c) evs in
  let s' := state_of (onMouseDown (Scenario.press 0) s) in
  rowPlaceholderElement s' = Some (Ph (viewCounter s) 0)
  ∧ nextSibling Host (children (dom s')) = Some (Ph (viewCounter s) 0).
Proof.
  intros c evs.
  apply (press_puts_the_placeholder_after_the_host c evs (Scenario.press 0)
           {| rootCount := 1 |}); [reflexivity|reflexivity|simpl; lia].
Defined.

Lemma length_place_after x new (l : list node) :
  (length (place_after x new l) ≤ length l + length new)%nat.
Proof.
  induction l as [|y l IH]; simpl; [lia|].
  case_decide; simpl; rewrite ?length_app; lia.
Qed.

Lemma length_removeRowPlaceholderElement s :
  (length (children (dom (removeRowPlaceholderElement s)))
   ≤ length (children (dom s)))%nat.
Proof.
  unfold removeRowPlaceholderElement, destroy, detach.
  destruct (rowPlaceholderViewRef s) as [v|]; fields_simpl;
    destruct (rowPlaceholderElement s) as [el|]; fields_simpl;
    try destruct (attached el _); fields_simpl;
    repeat (etrans; [apply length_filter|]); done.
Qed.

(** X17.  An index outside the child list, negative or past its end, makes
    [changeRowPlaceholderIndex] put the placeholder last in the list. *)
Theorem out_of_range_index_appends :
  ∀ (s : State) (tpl : TemplateRef) (index : Z),
    rootCount tpl ≠ 0%nat →
    index < 0 ∨ Z.of_nat (length (children (dom s)) + rootCount tpl) ≤ index →
    rowPlaceholderElement (changeRowPlaceholderIndex tpl index s)
    = Some (Ph (viewCounter s) 0)
    ∧ last (children (dom (changeRowPlaceholderIndex tpl index s)))
      = Some (Ph (viewCounter s) 0).
Proof.
  intros s tpl index Hk Hout.
  pose proof (length_removeRowPlaceholderElement s) as Hlen.
  destruct (removeRowPlaceholderElement_keeps s) as (_ & <- & _).
  unfold changeRowPlaceholderIndex, createEmbeddedView.
  set (s1 := removeRowPlaceholderElement s) in *. fields_simpl.
  pose proof (length_place_after Host (Ph (viewCounter s1) <$> seq 0 (rootCount tpl))
                (children (dom s1))) as Hc2.
  rewrite length_fmap, length_seq in Hc2.
  set (c2 := place_after Host _ _) in *.
  destruct (rootCount tpl) as [|k]; [done|].
  cbn [seq fmap list_fmap head]. fields_simpl.
  destruct (index =? Z.of_nat (length c2)); fields_simpl;
    (split; [done|]); [by apply last_snoc|].
  assert (item index c2 = None) as ->; [|by apply last_snoc].
  unfold item. destruct (Z.ltb_spec index 0); [done|].
  apply lookup_ge_None. lia.
Qed.

Lemma out_of_range_index_appends_witness :
  let s := run (constructor (Scenario.rows None Scenario.one_root))
               [MouseDown (Scenario.press 0)] in
  rowPlaceholderElement (changeRowPlaceholderIndex {| rootCount := 1 |} (-1) s)
  = Some (Ph (viewCounter s) 0)
  ∧ last (children (dom (changeRowPlaceholderIndex {| rootCount := 1 |} (-1) s)))
    = Some (Ph (viewCounter s) 0).
Proof.
  intros s.
  apply (out_of_range_index_appends s {| rootCount := 1 |} (-1)); [simpl; lia|lia].
Defined.

Lemma nextSibling_place_before r x l :
  x ∉ l → r ∈ l → nextSibling x (place_before r x l) = Some r.
Proof.
  induction l as [|y l IH]; intros Hx Hr; [by apply elem_of_nil in Hr|].
  simpl. case_decide as Hy.
  - subst y. simpl. by rewrite decide_True.
  - simpl. rewrite decide_False by (intros ->; apply Hx; left).
    apply IH; [by intros ?; apply Hx; right|].
    apply elem_of_cons in Hr as [->|]; done.
Qed.

(** X19.  An index that designates a child other than the fresh placeholder,
    in the list as it stands once the new view is rendered behind the host,
    makes [changeRowPlaceholderIndex] put the placeholder immediately before
    that child. *)
Theorem in_range_index_puts_the_placeholder_before_that_child :
  ∀ (s : State) (tpl : TemplateRef) (index : Z) (r : node),
    rootCount tpl ≠ 0%nat →
    item index
      (place_after Host (Ph (viewCounter s) <$> seq 0 (rootCount tpl))
                   (children (dom (removeRowPlaceholderElement s))))
    = Some r →
    r ≠ Ph (viewCounter s) 0 →
    nextSibling (Ph (viewCounter s) 0)
                (children (dom (changeRowPlaceholderIndex tpl index s)))
    = Some r.
Proof.
  intros s tpl index r Hk Hitem Hr.
  destruct (removeRowPlaceholderElement_keeps s) as (_ & Hc & _).
  rewrite <- Hc in *.
  unfold changeRowPlaceholderIndex, createEmbeddedView.
  set (s1 := removeRowPlaceholderElement s) in *. fields_simpl.
  set (c2 := place_after Host _ _) in *.
  destruct (rootCount tpl) as [|k]; [done|].
  cbn [seq fmap list_fmap head]. fields_simpl.
  unfold item in Hitem. destruct (Z.ltb_spec index 0); [done|].
  pose proof (lookup_lt_Some _ _ _ Hitem) as Hlt.
  assert ((index =? Z.of_nat (length c2)) = false) as -> by (apply Z.eqb_neq; lia).
  fields_simpl. unfold item. destruct (Z.ltb_spec index 0); [lia|].
  rewrite Hitem. unfold insertBefore. rewrite decide_False by done.
  apply nextSibling_place_before.
  - unfold detach. rewrite list_elem_of_filter. tauto.
  - unfold detach. apply list_elem_of_filter. split; [done|].
    by apply list_elem_of_lookup_2 in Hitem.
Qed.

Lemma in_range_index_puts_the_placeholder_before_that_child_witness :
  let s := run (constructor (Scenario.rows None Scenario.one_root))
               [MouseDown (Scenario.press 0)] in
  nextSibling (Ph (viewCounter s) 0)
              (children (dom (changeRowPlaceholderIndex {| rootCount := 1 |} 0 s)))
  = Some (Item 0).
Proof.
  intros s.
  apply (in_range_index_puts_the_placeholder_before_that_child
           s {| rootCount := 1 |} 0 (Item 0)); [simpl; lia|reflexivity|done].
Defined.

(** ** The range of the index *)

(** In the states the directive reaches, the siblings counted by a
    pointer-move include the host and are at most the rows plus the roots of
    the view other than the placeholder the directive points to. *)
Lemma itemsOf_size rows s :
  Host ∈ rows →
  arranged rows s →
  itemsOf s ≠ []
  ∧ (length (itemsOf s) ≤ length rows + (template_roots (inputs s) - 1))%nat.
Proof.
  intros Hh Ha. pose proof (arranged_host _ _ Hh Ha) as Hhost.
  destruct Ha as (Hr & He & Hv). split.
  - assert (Host ∈ itemsOf s) as Hin.
    { unfold itemsOf. apply list_elem_of_filter. split; [|done].
      intros Heq. symmetry in Heq. by apply He in Heq. }
    intros Hnil. rewrite Hnil in Hin. by apply elem_of_nil in Hin.
  - pose proof (length_rows_placeholders (children (dom s))) as Hlen.
    rewrite Hr in Hlen. unfold itemsOf, template_roots.
    destruct (rowPlaceholderViewRef s) as [v|].
    + destruct Hv as ((tpl & -> & Hroots) & Hperm & Hel).
      rewrite Hperm, Hroots, length_fmap, length_seq in Hlen.
      rewrite Hel, Hroots.
      destruct (rootCount tpl) as [|k].
      * etrans; [apply length_filter|]. lia.
      * cbn [seq fmap list_fmap head].
        assert (Ph (view_id v) 0 ∈ children (dom s)) as Hin.
        { assert (Ph (view_id v) 0 ∈ placeholders_of (children (dom s))) as Hp
            by (rewrite Hperm, Hroots; left).
          unfold placeholders_of in Hp. by apply list_elem_of_filter in Hp as [_ ?]. }
        pose proof (length_filter_lt (λ child, Some child ≠ Some (Ph (view_id v) 0))
                      _ _ Hin) as Hlt.
        specialize (Hlt ltac:(tauto)). lia.
    + rewrite Hv in Hlen. etrans; [apply length_filter|]. simpl in Hlen. lia.
Qed.

(** X18.  Whatever events the directive has processed since its
    construction, [oldIndex] and the [oldIndex] of every event emitted lie
    between [-1] and the largest number of siblings a pointer-move can count:
    with a template of one root, or none, that is the number of rows. *)
Theorem oldIndex_stays_in_range :
  ∀ (c : Setup) (evs : list Event),
    -1 ≤ oldIndex (run (constructor c) evs) ≤ Z.of_nat (most_items c)
    ∧ Forall (λ e, -1 ≤ ListDragReordering.oldIndex e ≤ Z.of_nat (most_items c))
             (changeCurrentElIndex (run (constructor c) evs)).
Proof.
  intros c evs. destruct (setup_children_rows c) as (Hh & Hr & Hp).
  set (P := λ s, -1 ≤ oldIndex s ≤ Z.of_nat (most_items c)
                 ∧ Forall (λ e, -1 ≤ ListDragReordering.oldIndex e
                                ≤ Z.of_nat (most_items c))
                          (changeCurrentElIndex s)).
  assert (∀ s, (arranged (setup_children c) s ∧ in_step s) →
               inputs s = setup_inputs c → P s → P (run s evs)) as Hrun.
  { induction evs as [|ev evs IH]; intros s Hs Hi [Ho Hf]; [done|].
    rewrite run_cons. apply IH.
    - destruct ev; simpl;
        auto using steady_onMouseDown, steady_onMouseMove, steady_onMouseUp.
    - by rewrite inputs_handle.
    - destruct ev as [d|m|u]; simpl.
      + destruct (onMouseDown_session d s) as (_ & Ho' & He' & _).
        split; [by rewrite Ho'|by rewrite He'].
      + destruct (onMouseMove_session m s) as (_ & He' & _).
        split; [|by rewrite He'].
        destruct (reevaluates (MouseMove m) s) eqn:Hre;
          [|by rewrite (oldIndex_handle (MouseMove m) s Hre : oldIndex (onMouseMove m s) = _)].
        simpl in Hre. apply andb_true_iff in Hre as [Hre Hsome].
        apply andb_true_iff in Hre as [Hd Hy].
        apply bool_decide_eq_true in Hy, Hsome. destruct Hsome as [x Hx].
        rewrite (onMouseMove_stores_newIndex m s x Hd Hy Hx).
        destruct (itemsOf_size _ s Hh (proj1 Hs)) as [Hne Hlen].
        rewrite Hi in Hlen. fold (most_items c) in Hlen.
        pose proof (newIndexFor_bounds (itemsOf s) x (oldIndex s)
                      (mm_clientY m) (prevY s)) as [Hup Hlow].
        simpl in Hup, Hlow.
        assert (1 ≤ Z.of_nat (length (itemsOf s)))
          by (destruct (itemsOf s); [done|simpl; lia]).
        split; [by apply Hlow|lia].
      + destruct (onMouseUp_session u s) as (_ & Ho' & _ & He').
        split; [by rewrite Ho'|]. rewrite He'. apply Forall_app. split; [done|].
        destruct (isDragging s); [|done]. by apply Forall_singleton. }
  apply Hrun.
  - split; [|done]. split; [exact Hr|]. split; [done|exact Hp].
  - done.
  - split; [simpl; lia|apply Forall_nil_2].
Qed.
